(** * spaces-design: policy store, number input and document model

    A shallow embedding of three modules of the Photoshop design-space UI:

    - [src/js/stores/policy.js]: the Flux store that tracks the keyboard and
      pointer event policies, with its suspend/restore protocol;
    - the [NumberInput] component's [extractValue];
    - the immutable [Document] record with [fromDescriptors] and [resize].

    JavaScript objects used as dictionaries are finite maps, a method that can
    throw returns a completion, and the store's methods live in a small
    state-and-exception monad over the store's fields. *)

From Stdlib Require Import ZArith NArith.
From Stdlib.Floats Require Import SpecFloat.
From stdpp Require Import base option list strings gmap sorting.

Local Open Scope string_scope.

(** ** JavaScript completions *)

(** The exceptions that the modelled code can raise: the [TypeError] of a
    property access or method call on [undefined] or [null], and
    [new Error(message)]. *)
Inductive exn : Type :=
  | TypeError
  | Error (message : string).

(** The outcome of evaluating a call: a value, or a thrown exception. *)
Inductive completion (A : Type) : Type :=
  | Return (a : A)
  | Throw (e : exn).
Arguments Return {A} a.
Arguments Throw {A} e.

Definition completes {A : Type} (c : completion A) : Prop :=
  ∃ a, c = Return a.

Definition throws {A : Type} (c : completion A) : Prop :=
  ∃ e, c = Throw e.

(** JavaScript numbers are IEEE 754 binary64 values; only their class
    (finite, infinite, not-a-number) matters here. *)
Definition number : Type := spec_float.

Definition NaN : number := S754_nan.
Definition Infinity : number := S754_infinity false.
Definition NegInfinity : number := S754_infinity true.

(** ** Event policy sets *)

Module EventPolicySet.

(** The methods of [js/models/eventpolicyset] that the policy store calls.
    The store only ever goes through this interface.  An [EventPolicySet]
    is a mutable object: a method that updates its receiver returns the
    receiver's new state next to its result. *)
Class Ops (EventPolicy EPS : Type) : Type := {
  (** [new EventPolicySet(counter)], the counter being optional *)
  new : option N → EPS;
  getNextPolicyID : EPS → N;
  has : EPS → N → bool;
  (** [this.append(policySet)] *)
  append : EPS → EPS → EPS;
  addPolicyList : EPS → list EventPolicy → EPS * N;
  removePolicyList : EPS → N → EPS * completion (list EventPolicy);
  getMasterPolicyList : EPS → list EventPolicy
}.

(** Modelled from the spec: the class [EventPolicySet] of
    [js/models/eventpolicyset], which is required by the policy store but
    is not among the sources.  A policy set holds policy lists indexed by
    the numeric ID under which each was installed, and the counter from
    which the next ID is issued. *)
Record t (EventPolicy : Type) : Type := mk {
  _policyLists : gmap N (list EventPolicy);
  _policyCounter : N
}.
Arguments mk {EventPolicy} _ _.
Arguments _policyLists {EventPolicy} _.
Arguments _policyCounter {EventPolicy} _.

Section Model.
Context {EventPolicy : Type}.
Implicit Types (s : t EventPolicy) (id : N).

(** Modelled from the spec: a fresh policy set is empty, and its ID
    counter starts from the given counter, or from 0. *)
Definition model_new (counter : option N) : t EventPolicy :=
  mk ∅ (default 0%N counter).

(** Modelled from the spec: the next policy ID is the counter. *)
Definition model_getNextPolicyID s : N := _policyCounter s.

(** Modelled from the spec: whether a list is installed under [id]. *)
Definition model_has s id : bool :=
  bool_decide (is_Some (_policyLists s !! id)).

(** Modelled from the spec: [this] appended with [other] holds the lists
    of both (those of [other] last), and issues IDs past those of both. *)
Definition model_append s (other : t EventPolicy) : t EventPolicy :=
  mk (_policyLists other ∪ _policyLists s)
     (N.max (_policyCounter s) (_policyCounter other)).

(** Modelled from the spec: a list is installed under the next ID, which
    is returned, and the counter moves on. *)
Definition model_addPolicyList s (policyList : list EventPolicy)
  : t EventPolicy * N :=
  let id := _policyCounter s in
  (mk (<[id := policyList]> (_policyLists s)) (N.succ id), id).

(** Modelled from the spec: removing an installed list returns it; an
    unknown ID removes nothing and is reported as an error. *)
Definition model_removePolicyList s id
  : t EventPolicy * completion (list EventPolicy) :=
  match _policyLists s !! id with
  | Some policyList =>
      (mk (delete id (_policyLists s)) (_policyCounter s), Return policyList)
  | None => (s, Throw (Error "Unknown policy list"))
  end.

(** Modelled from the spec: the master policy list is the concatenation
    of the installed lists, in the order of their IDs. *)
Definition model_getMasterPolicyList s : list EventPolicy :=
  mjoin ((λ id, default [] (_policyLists s !! id))
           <$> merge_sort N.le (elements (dom (_policyLists s)))).

#[global] Instance model_ops : Ops EventPolicy (t EventPolicy) := {|
  new := model_new;
  getNextPolicyID := model_getNextPolicyID;
  has := model_has;
  append := model_append;
  addPolicyList := model_addPolicyList;
  removePolicyList := model_removePolicyList;
  getMasterPolicyList := model_getMasterPolicyList
|}.

(** The IDs of a policy set all lie below its counter, as they do in
    every set built by [new] and grown by [addPolicyList]. *)
Definition ids_below_counter s : Prop :=
  ∀ id, is_Some (_policyLists s !! id) → (id < _policyCounter s)%N.
End Model.

End EventPolicySet.

(** ** The policy store ([src/js/stores/policy.js]) *)

Module PolicyStore.

(** [PolicyStore.eventKind]: the two kinds of policy sets.  Every method
    that takes a [kind] is documented to take one of these two values. *)
Inductive eventKind : Type :=
  | KEYBOARD
  | POINTER.

(** The string that each kind stands for in [_eventKind]. *)
Definition eventKind_value (kind : eventKind) : string :=
  match kind with
  | KEYBOARD => "keyboard"
  | POINTER => "pointer"
  end.

#[global] Instance eventKind_eq_dec : EqDecision eventKind.
Proof. solve_decision. Defined.

#[global] Instance eventKind_countable : Countable eventKind.
Proof.
  refine (inj_countable'
            (λ kind, match kind with KEYBOARD => false | POINTER => true end)
            (λ b, if b then POINTER else KEYBOARD) _).
  by intros [].
Defined.

(** [Object.keys(_eventKind)], in the order of definition. *)
Definition kinds : list eventKind := [KEYBOARD; POINTER].

Section Store.
Context {EventPolicy EPS : Type} `{!EventPolicySet.Ops EventPolicy EPS}.

(** The store's private fields, each an object indexed by event kind, and
    the "change" events that the store has emitted so far (latest first).
    A mode is a number or [undefined]: [suspend] and [restore] copy
    [this._modes[kind]] whether or not it was ever set. *)
Record t : Type := mk {
  _policySets : gmap eventKind EPS;
  _modes : gmap eventKind (option Z);
  _suspendedPolicySets : gmap eventKind EPS;
  _suspendedModes : gmap eventKind (option Z);
  _dirtyPolicies : gmap eventKind bool;
  emitted : list string
}.

Definition set_policySets (f : gmap eventKind EPS → gmap eventKind EPS)
    (st : t) : t :=
  mk (f (_policySets st)) (_modes st) (_suspendedPolicySets st)
     (_suspendedModes st) (_dirtyPolicies st) (emitted st).

Definition set_modes
    (f : gmap eventKind (option Z) → gmap eventKind (option Z)) (st : t) : t :=
  mk (_policySets st) (f (_modes st)) (_suspendedPolicySets st)
     (_suspendedModes st) (_dirtyPolicies st) (emitted st).

Definition set_suspendedPolicySets
    (f : gmap eventKind EPS → gmap eventKind EPS) (st : t) : t :=
  mk (_policySets st) (_modes st) (f (_suspendedPolicySets st))
     (_suspendedModes st) (_dirtyPolicies st) (emitted st).

Definition set_suspendedModes
    (f : gmap eventKind (option Z) → gmap eventKind (option Z)) (st : t) : t :=
  mk (_policySets st) (_modes st) (_suspendedPolicySets st)
     (f (_suspendedModes st)) (_dirtyPolicies st) (emitted st).

Definition set_dirtyPolicies
    (f : gmap eventKind bool → gmap eventKind bool) (st : t) : t :=
  mk (_policySets st) (_modes st) (_suspendedPolicySets st)
     (_suspendedModes st) (f (_dirtyPolicies st)) (emitted st).

Definition set_emitted (f : list string → list string) (st : t) : t :=
  mk (_policySets st) (_modes st) (_suspendedPolicySets st)
     (_suspendedModes st) (_dirtyPolicies st) (f (emitted st)).

(** *** The monad of store methods

    A method runs on the store's fields and either returns a value or
    throws; in both cases the fields are left as the statements executed
    so far have set them. *)
Definition M (A : Type) : Type := t → t * completion A.

#[global] Instance M_ret : MRet M := λ A a st, (st, Return a).

#[global] Instance M_bind : MBind M := λ A B f m st,
  match m st with
  | (st', Return a) => f a st'
  | (st', Throw e) => (st', Throw e)
  end.

Definition this : M t := λ st, (st, Return st).

Definition assign (f : t → t) : M unit := λ st, (f st, Return tt).

Definition throw {A : Type} (e : exn) : M A := λ st, (st, Throw e).

(** Using a looked-up value as an object: a [TypeError] when the lookup
    gave [undefined]. *)
Definition object {A : Type} (o : option A) : M A :=
  match o with
  | Some a => mret a
  | None => throw TypeError
  end.

(** [this.emit(event)] *)
Definition emit (event : string) : M unit :=
  assign (set_emitted (cons event)).

(** The state in which a call leaves the store, and its completion. *)
Definition state_after {A : Type} (m : M A) (st : t) : t := (m st).1.
Definition outcome {A : Type} (m : M A) (st : t) : completion A := (m st).2.

(** *** Handlers of dispatched actions *)

Definition _handlePoliciesInstalled (kind : eventKind) : M unit :=
  assign (set_dirtyPolicies (delete kind));;
  emit "change".

Definition _handleReset : M unit :=
  assign (set_policySets (λ _,
    foldl (λ sets kind, <[kind := EventPolicySet.new None]> sets) ∅ kinds));;
  assign (set_modes (λ _, ∅));;
  assign (set_suspendedPolicySets (λ _, ∅));;
  assign (set_suspendedModes (λ _, ∅));;
  assign (set_dirtyPolicies (λ _, ∅)).

Definition _handleModeChanged (kind : eventKind) (mode : Z) : M unit :=
  assign (set_modes <[kind := Some mode]>);;
  emit "change".

(** *** Queries *)

(** [!!this._dirtyPolicies[kind]] *)
Definition isDirty (st : t) (kind : eventKind) : bool :=
  default false (_dirtyPolicies st !! kind).

(** [this._modes[kind]], which is [undefined] ([None]) for a kind whose mode
    was never set or was set to [undefined]. *)
Definition getMode (st : t) (kind : eventKind) : option Z :=
  mjoin (_modes st !! kind).

(** [!!this._suspendedPolicySets[kind]]: a policy set is an object, hence
    truthy. *)
Definition isSuspended (st : t) (kind : eventKind) : bool :=
  bool_decide (is_Some (_suspendedPolicySets st !! kind)).

Definition areAllSuspended (st : t) : bool :=
  bool_decide (is_Some (_suspendedPolicySets st !! KEYBOARD)) &&
  bool_decide (is_Some (_suspendedPolicySets st !! KEYBOARD)).

Definition getMasterPolicyList (kind : eventKind) : M (list EventPolicy) :=
  st ← this;
  policySet ← object (_policySets st !! kind);
  mret (EventPolicySet.getMasterPolicyList policySet).

Definition getMasterKeyboardPolicyList : M (list EventPolicy) :=
  getMasterPolicyList KEYBOARD.

Definition getMasterPointerPolicyList : M (list EventPolicy) :=
  getMasterPolicyList POINTER.

(** *** Suspension *)

Definition suspend (kind : eventKind) : M unit :=
  st ← this;
  previousPolicySet ← object (_policySets st !! kind);
  let counter := EventPolicySet.getNextPolicyID previousPolicySet in
  assign (set_policySets <[kind := EventPolicySet.new (Some counter)]>);;
  assign (set_suspendedPolicySets <[kind := previousPolicySet]>);;
  assign (set_suspendedModes <[kind := mjoin (_modes st !! kind)]>);;
  assign (set_dirtyPolicies <[kind := true]>);;
  emit "change".

(** The argument of [append] is [this._policySets[kind]]; [append] reads
    the policy lists of its argument, which is a [TypeError] should the
    argument be [undefined]. *)
Definition restore (kind : eventKind) : M unit :=
  st ← this;
  let suspendedPolicies := _suspendedPolicySets st !! kind in
  let suspendedMode := mjoin (_suspendedModes st !! kind) in
  match suspendedPolicies with
  | None => throw (Error "Policies are not currently suspended")
  | Some suspendedPolicies =>
      assign (set_modes <[kind := suspendedMode]>);;
      policySet ← object (_policySets st !! kind);
      assign (set_policySets
                <[kind := EventPolicySet.append suspendedPolicies policySet]>);;
      assign (set_suspendedPolicySets (delete kind));;
      assign (set_dirtyPolicies <[kind := true]>);;
      emit "change"
  end.

(** *** Installing and removing policy lists *)

(** The completion of a method of a policy set, as a store computation that
    has already written the set's new state back. *)
Definition completed {A : Type} (c : completion A) : M A :=
  match c with
  | Return a => mret a
  | Throw e => throw e
  end.

Definition removePolicyList (kind : eventKind) (id : N)
    : M (list EventPolicy) :=
  st ← this;
  let suspendedPolicySet := _suspendedPolicySets st !! kind in
  assign (set_dirtyPolicies <[kind := true]>);;
  let fromActive : M (list EventPolicy) :=
    policySet ← object (_policySets st !! kind);
    let '(policySet', result) := EventPolicySet.removePolicyList policySet id in
    assign (set_policySets <[kind := policySet']>);;
    completed result in
  match suspendedPolicySet with
  | Some suspendedPolicySet =>
      if EventPolicySet.has suspendedPolicySet id then
        let '(suspendedPolicySet', result) :=
          EventPolicySet.removePolicyList suspendedPolicySet id in
        assign (set_suspendedPolicySets <[kind := suspendedPolicySet']>);;
        completed result
      else fromActive
  | None => fromActive
  end.

Definition removeKeyboardPolicyList (id : N) : M (list EventPolicy) :=
  removePolicyList KEYBOARD id.

Definition removePointerPolicyList (id : N) : M (list EventPolicy) :=
  removePolicyList POINTER id.

Definition addPolicyList (kind : eventKind) (policyList : list EventPolicy)
    : M N :=
  assign (set_dirtyPolicies <[kind := true]>);;
  st ← this;
  policySet ← object (_policySets st !! kind);
  let '(policySet', id) := EventPolicySet.addPolicyList policySet policyList in
  assign (set_policySets <[kind := policySet']>);;
  mret id.

Definition addKeyboardPolicyList (policyList : list EventPolicy) : M N :=
  addPolicyList KEYBOARD policyList.

Definition addPointerPolicyList (policyList : list EventPolicy) : M N :=
  addPolicyList POINTER policyList.

(** The test of [removePolicyList]: the kind is suspended and its suspended
    set has the ID. *)
Definition in_suspended (st : t) (kind : eventKind) (id : N) : bool :=
  match _suspendedPolicySets st !! kind with
  | Some suspendedPolicySet => EventPolicySet.has suspendedPolicySet id
  | None => false
  end.

(** [initialize]: a store starts from a reset of empty fields. *)
Definition initial : t :=
  state_after _handleReset (mk ∅ ∅ ∅ ∅ ∅ []).

(** *** The store as a transition system

    Everything that can change the store: the three dispatched actions it
    is bound to, and its mutating methods. *)
Inductive action : Type :=
  | RESET
  | POLICIES_INSTALLED (kind : eventKind)
  | MODE_CHANGED (kind : eventKind) (mode : Z)
  | Suspend (kind : eventKind)
  | Restore (kind : eventKind)
  | RemovePolicyList (kind : eventKind) (id : N)
  | RemoveKeyboardPolicyList (id : N)
  | RemovePointerPolicyList (id : N)
  | AddPolicyList (kind : eventKind) (policyList : list EventPolicy)
  | AddKeyboardPolicyList (policyList : list EventPolicy)
  | AddPointerPolicyList (policyList : list EventPolicy).

(** The store after an action; an exception thrown by a method leaves the
    store as it was when thrown. *)
Definition step (a : action) (st : t) : t :=
  match a with
  | RESET => state_after _handleReset st
  | POLICIES_INSTALLED kind => state_after (_handlePoliciesInstalled kind) st
  | MODE_CHANGED kind mode => state_after (_handleModeChanged kind mode) st
  | Suspend kind => state_after (suspend kind) st
  | Restore kind => state_after (restore kind) st
  | RemovePolicyList kind id => state_after (removePolicyList kind id) st
  | RemoveKeyboardPolicyList id => state_after (removeKeyboardPolicyList id) st
  | RemovePointerPolicyList id => state_after (removePointerPolicyList id) st
  | AddPolicyList kind l => state_after (addPolicyList kind l) st
  | AddKeyboardPolicyList l => state_after (addKeyboardPolicyList l) st
  | AddPointerPolicyList l => state_after (addPointerPolicyList l) st
  end.

(** The kind whose policies a mutating policy operation acts on. *)
Definition operation_kind (a : action) : option eventKind :=
  match a with
  | Suspend kind | Restore kind | RemovePolicyList kind _
  | AddPolicyList kind _ => Some kind
  | RemoveKeyboardPolicyList _ | AddKeyboardPolicyList _ => Some KEYBOARD
  | RemovePointerPolicyList _ | AddPointerPolicyList _ => Some POINTER
  | RESET | POLICIES_INSTALLED _ | MODE_CHANGED _ _ => None
  end.

Definition run (actions : list action) (st : t) : t :=
  foldl (λ st a, step a st) st actions.

(** Every kind has its policy set: [_handleReset] installs one per kind, and
    no method ever removes an entry of [_policySets]. *)
Definition has_policySets (st : t) : Prop :=
  ∀ kind, is_Some (_policySets st !! kind).

End Store.

Arguments t : clear implicits.
Arguments M : clear implicits.
Arguments action : clear implicits.

End PolicyStore.

(** ** JavaScript values and property access *)

#[global] Instance completion_ret : MRet completion := λ A a, Return a.

#[global] Instance completion_bind : MBind completion := λ A B f c,
  match c with
  | Return a => f a
  | Throw e => Throw e
  end.

(** The values found in a descriptor of the host application: primitives
    and plain objects. *)
#[warnings="-register-all"]
Inductive jsval : Type :=
  | JUndefined
  | JNull
  | JBoolean (b : bool)
  | JNumber (n : number)
  | JString (s : string)
  | JObject (properties : gmap string jsval).

Definition nullish (v : jsval) : bool :=
  match v with
  | JUndefined | JNull => true
  | _ => false
  end.

(** The value of [v.key] where [v] is not nullish: the property of an
    object, and [undefined] where there is none.  The keys read in this
    development name no property that a primitive or a plain object
    inherits. *)
Definition prop (v : jsval) (key : string) : jsval :=
  match v with
  | JObject properties => default JUndefined (properties !! key)
  | _ => JUndefined
  end.

(** Evaluating [v.key]: a [TypeError] on [undefined] and [null]. *)
Definition get (v : jsval) (key : string) : completion jsval :=
  if nullish v then Throw TypeError else Return (prop v key).

(** [typeof v] *)
Definition typeof (v : jsval) : string :=
  match v with
  | JUndefined => "undefined"
  | JNull => "object"
  | JBoolean _ => "boolean"
  | JNumber _ => "number"
  | JString _ => "string"
  | JObject _ => "object"
  end.

(** [v === null] *)
Definition is_null (v : jsval) : bool :=
  match v with
  | JNull => true
  | _ => false
  end.

(** ** The number input component *)

Module NumberInput.

(** lodash's [_.isFinite], on a number: neither an infinity nor [NaN]. *)
Definition isFinite (value : number) : bool :=
  match value with
  | S754_zero _ | S754_finite _ _ _ => true
  | S754_infinity _ | S754_nan => false
  end.

Section ExtractValue.
(** [math.parseNumber] of [js/util/math] is not among the sources; it is
    called with the raw string and the radix and yields a number. *)
Variable parseNumber : string → Z → number.

(** The extracted value is a number or [null] ([None]). *)
Definition extractValue (rawValue : string) : option number :=
  let value := parseNumber rawValue 10 in
  if isFinite value then Some value else None.

End ExtractValue.

Section FormatValue.
(** [Number.prototype.toString], the built-in that renders a number in
    decimal, is taken as given. *)
Variable Number_toString : number → string.

(** [value.toString()]: a [TypeError] on [undefined] and [null], the
    string itself on a string, the built-in rendering otherwise. *)
Definition toString (value : jsval) : completion string :=
  match value with
  | JUndefined | JNull => Throw TypeError
  | JBoolean b => Return (if b then "true" else "false")
  | JNumber n => Return (Number_toString n)
  | JString s => Return s
  | JObject _ => Return "[object Object]"
  end.

Definition formatValue (value : jsval) : completion string :=
  if is_null value
     || (negb (String.eqb (typeof value) "number")
         && negb (String.eqb (typeof value) "string"))
  then Return ""
  else toString value.

(** What [extractValue] returns, as a JavaScript value. *)
Definition extracted (value : option number) : jsval :=
  match value with
  | Some n => JNumber n
  | None => JNull
  end.

End FormatValue.

End NumberInput.

(** ** The document model *)

Module Document.

Section Document.
(** The models [./bounds] and [./layerstructure] are not among the sources:
    their types, the two constructors called by [fromDescriptors] and the
    method called by [resize] are parameters of the document model. *)
Context {Bounds LayerStructure : Type}.
Variable Bounds_fromDocumentDescriptor : jsval → completion Bounds.
Variable Bounds_updateSize : Bounds → number → number → Bounds.
Variable LayerStructure_fromDescriptors :
  jsval → list jsval → completion LayerStructure.

(** The [Immutable.Record] of a document.  The fields copied from a
    descriptor hold whatever value the descriptor has; [layers] and
    [bounds] hold a model, or the record's default [null] ([None]). *)
Record t : Type := mk {
  id : jsval;
  name : jsval;
  hasBackgroundLayer : jsval;
  layers : option LayerStructure;
  bounds : option Bounds;
  resolution : jsval;
  mode : jsval
}.

(** [new Document()]: every field has the default [null]. *)
Definition blank : t := mk JNull JNull JNull None None JNull JNull.

(** [this.set("bounds", value)]: a record that differs from this one in the
    field [bounds] alone. *)
Definition set_bounds (value : option Bounds) (this : t) : t :=
  mk (id this) (name this) (hasBackgroundLayer this) (layers this)
     value (resolution this) (mode this).

(** The [model] object is filled in field by field, in the order of the
    source, and [new Document(model)] takes every field from it. *)
Definition fromDescriptors (documentDescriptor : jsval)
    (layerDescriptors : list jsval) : completion t :=
  model_id ← get documentDescriptor "documentID";
  model_hasBackgroundLayer ← get documentDescriptor "hasBackgroundLayer";
  model_name ← get documentDescriptor "title";
  model_resolution ← get documentDescriptor "resolution" ≫= λ r, get r "value";
  model_mode ← get documentDescriptor "mode" ≫= λ m, get m "value";
  model_bounds ← Bounds_fromDocumentDescriptor documentDescriptor;
  model_layers ←
    LayerStructure_fromDescriptors documentDescriptor layerDescriptors;
  mret (mk model_id model_name model_hasBackgroundLayer (Some model_layers)
           (Some model_bounds) model_resolution model_mode).

Definition resize (this : t) (x y : number) : completion t :=
  match bounds this with
  | Some this_bounds =>
      mret (set_bounds (Some (Bounds_updateSize this_bounds x y)) this)
  | None => Throw TypeError
  end.

End Document.

Arguments t : clear implicits.

End Document.

(** ** What a history of actions amounts to, kind by kind *)

Module KindState.

(** What the queries of the store can tell about one kind, and the mode
    that the last suspension saved. *)
Record t : Type := mk {
  suspended : bool;
  dirty : bool;
  mode : option Z;
  savedMode : option Z
}.

Definition initial : t := mk false false None None.

End KindState.

Section History.
Context {EventPolicy : Type}.

(** The kind that an action concerns, [RESET] concerning all of them. *)
Definition affected_kind (a : PolicyStore.action EventPolicy)
    : option PolicyStore.eventKind :=
  match a with
  | PolicyStore.RESET => None
  | PolicyStore.POLICIES_INSTALLED kind
  | PolicyStore.MODE_CHANGED kind _ => Some kind
  | _ => PolicyStore.operation_kind a
  end.

(** The effect of an action on the state of [kind]: suspension is a flag
    that [suspend] raises and [restore] lowers, every policy operation
    raises the dirty flag, and the mode is saved and brought back. *)
Definition kind_step (a : PolicyStore.action EventPolicy)
    (kind : PolicyStore.eventKind) (s : KindState.t) : KindState.t :=
  match a with
  | PolicyStore.RESET => KindState.initial
  | _ =>
    if decide (affected_kind a = Some kind) then
      match a with
      | PolicyStore.POLICIES_INSTALLED _ =>
          KindState.mk (KindState.suspended s) false (KindState.mode s)
            (KindState.savedMode s)
      | PolicyStore.MODE_CHANGED _ mode =>
          KindState.mk (KindState.suspended s) (KindState.dirty s) (Some mode)
            (KindState.savedMode s)
      | PolicyStore.Suspend _ =>
          KindState.mk true true (KindState.mode s) (KindState.mode s)
      | PolicyStore.Restore _ =>
          if KindState.suspended s
          then KindState.mk false true (KindState.savedMode s)
                 (KindState.savedMode s)
          else s
      | _ =>
          KindState.mk (KindState.suspended s) true (KindState.mode s)
            (KindState.savedMode s)
      end
    else s
  end.

(** Whether an action notifies the listeners of the store, given the
    states of the kinds before it. *)
Definition emits_change (a : PolicyStore.action EventPolicy)
    (states : PolicyStore.eventKind → KindState.t) : bool :=
  match a with
  | PolicyStore.POLICIES_INSTALLED _ | PolicyStore.MODE_CHANGED _ _
  | PolicyStore.Suspend _ => true
  | PolicyStore.Restore kind => KindState.suspended (states kind)
  | _ => false
  end.

(** The states of the kinds and the number of notifications, after one
    more action and after a whole history. *)
Definition history_step
    (h : (PolicyStore.eventKind → KindState.t) * nat)
    (a : PolicyStore.action EventPolicy)
    : (PolicyStore.eventKind → KindState.t) * nat :=
  (λ kind, kind_step a kind (h.1 kind),
   if emits_change a h.1 then S h.2 else h.2).

Definition history (actions : list (PolicyStore.action EventPolicy))
    : (PolicyStore.eventKind → KindState.t) * nat :=
  foldl history_step (λ _, KindState.initial, 0) actions.

End History.

(** A store is summarised by a history when its queries answer what the
    history says, it has emitted that many "change" events and nothing
    else, and every kind has its policy set. *)
Definition summarises {EPS : Type} (st : PolicyStore.t EPS)
    (h : (PolicyStore.eventKind → KindState.t) * nat) : Prop :=
  PolicyStore.has_policySets st ∧
  PolicyStore.emitted st = replicate h.2 "change" ∧
  ∀ kind,
    PolicyStore.isSuspended st kind = KindState.suspended (h.1 kind) ∧
    PolicyStore.isDirty st kind = KindState.dirty (h.1 kind) ∧
    PolicyStore.getMode st kind = KindState.mode (h.1 kind) ∧
    mjoin (PolicyStore._suspendedModes st !! kind)
      = KindState.savedMode (h.1 kind).

(** Two stores agree at a kind when their five fields do. *)
Definition same_at {EPS : Type} (st st' : PolicyStore.t EPS)
    (kind : PolicyStore.eventKind) : Prop :=
  PolicyStore._policySets st' !! kind = PolicyStore._policySets st !! kind ∧
  PolicyStore._modes st' !! kind = PolicyStore._modes st !! kind ∧
  PolicyStore._suspendedPolicySets st' !! kind
    = PolicyStore._suspendedPolicySets st !! kind ∧
  PolicyStore._suspendedModes st' !! kind
    = PolicyStore._suspendedModes st !! kind ∧
  PolicyStore._dirtyPolicies st' !! kind
    = PolicyStore._dirtyPolicies st !! kind.

(** ** The store over the modelled policy sets *)

(** Every policy set held by the store, active or suspended, has its IDs
    below its counter. *)
Definition bounded_ids {EventPolicy : Type}
    (st : PolicyStore.t (EventPolicySet.t EventPolicy)) : Prop :=
  (∀ kind s, PolicyStore._policySets st !! kind = Some s →
             EventPolicySet.ids_below_counter s) ∧
  (∀ kind s, PolicyStore._suspendedPolicySets st !! kind = Some s →
             EventPolicySet.ids_below_counter s).

(** ** Example stores, documents and descriptors *)

Module Examples.
Import PolicyStore.

(** A store of policies named by strings: one keyboard policy list is
    installed in mode 1, keyboard policies are suspended, and during the
    suspension the mode changes and a second list is installed. *)
Definition suspended_keyboard : t (EventPolicySet.t string) :=
  run [MODE_CHANGED KEYBOARD 1; AddPolicyList KEYBOARD ["escape"];
       Suspend KEYBOARD; MODE_CHANGED KEYBOARD 2;
       AddPolicyList KEYBOARD ["tab"; "enter"]]
      initial.

(** The set that the suspension of [suspended_keyboard] saved. *)
Definition saved_set : EventPolicySet.t string :=
  EventPolicySet.mk {[0%N := ["escape"]]} 1.

(** The set that [suspended_keyboard] accumulated since. *)
Definition accumulated_set : EventPolicySet.t string :=
  EventPolicySet.mk {[1%N := ["tab"; "enter"]]} 2.

(** A store with two keyboard policy lists and a keyboard mode, idle. *)
Definition two_lists : t (EventPolicySet.t string) :=
  run [MODE_CHANGED KEYBOARD 1; AddPolicyList KEYBOARD ["escape"];
       AddPolicyList KEYBOARD ["tab"; "enter"]; POLICIES_INSTALLED KEYBOARD]
      initial.

Definition two_lists_set : EventPolicySet.t string :=
  EventPolicySet.mk {[0%N := ["escape"]; 1%N := ["tab"; "enter"]]} 2.

(** Bounds as a width and a height, with the obvious [updateSize]. *)
Definition size_updateSize (b : number * number) (x y : number)
    : number * number := (x, y).

Definition seventy_two : number := S754_finite false 9 3.
Definition six_hundred_forty : number := S754_finite false 5 7.
Definition four_hundred_eighty : number := S754_finite false 15 5.

Definition untitled : Document.t (number * number) unit :=
  Document.mk (JNumber (S754_finite false 1 0)) (JString "Untitled-1")
    (JBoolean true) (Some tt) (Some (six_hundred_forty, four_hundred_eighty))
    (JNumber seventy_two) (JString "RGBColor").

(** A document descriptor as the host application sends it. *)
Definition untitled_descriptor : jsval :=
  JObject {[ "documentID" := JNumber (S754_finite false 1 0);
             "title" := JString "Untitled-1";
             "hasBackgroundLayer" := JBoolean true;
             "resolution" := JObject {[ "unit" := JString "densityUnit";
                                        "value" := JNumber seventy_two ]};
             "mode" := JObject {[ "enum" := JString "colorSpace";
                                  "value" := JString "RGBColor" ]};
             "width" := JNumber six_hundred_forty;
             "height" := JNumber four_hundred_eighty ]}.

(** Bounds and layers built from a descriptor, for the example: the bounds
    are the descriptor's width and height, which must be numbers. *)
Definition size_fromDocumentDescriptor (descriptor : jsval)
    : completion (number * number) :=
  match prop descriptor "width", prop descriptor "height" with
  | JNumber w, JNumber h => Return (w, h)
  | _, _ => Throw TypeError
  end.

Definition unit_fromDescriptors (descriptor : jsval) (layers : list jsval)
    : completion unit := Return tt.

End Examples.

(** * Properties of the policy store *)

Import PolicyStore.

(** Unfolds the plumbing of the store monad, leaving the field updates. *)
Ltac unfold_M :=
  unfold state_after, outcome, mbind, M_bind, mret, M_ret, this, assign,
    throw, emit, object, completed.

Section PolicyStoreEquations.
Context {EventPolicy EPS : Type} `{!EventPolicySet.Ops EventPolicy EPS}.
Implicit Types (st : t EPS) (kind : eventKind).

(** ** What each method does, as one state update *)

Lemma suspend_defined st kind previousPolicySet :
  _policySets st !! kind = Some previousPolicySet →
  suspend kind st =
    (mk (<[kind := EventPolicySet.new
                     (Some (EventPolicySet.getNextPolicyID previousPolicySet))]>
           (_policySets st))
        (_modes st)
        (<[kind := previousPolicySet]> (_suspendedPolicySets st))
        (<[kind := mjoin (_modes st !! kind)]> (_suspendedModes st))
        (<[kind := true]> (_dirtyPolicies st))
        ("change" :: emitted st),
     Return tt).
Proof. intros Hps. unfold suspend. unfold_M. rewrite Hps. reflexivity. Qed.

Lemma suspend_undefined st kind :
  _policySets st !! kind = None → suspend kind st = (st, Throw TypeError).
Proof. intros Hps. unfold suspend. unfold_M. rewrite Hps. reflexivity. Qed.

Lemma restore_not_suspended st kind :
  _suspendedPolicySets st !! kind = None →
  restore kind st = (st, Throw (Error "Policies are not currently suspended")).
Proof. intros Hs. unfold restore. unfold_M. rewrite Hs. reflexivity. Qed.

Lemma restore_defined st kind suspendedPolicies policySet :
  _suspendedPolicySets st !! kind = Some suspendedPolicies →
  _policySets st !! kind = Some policySet →
  restore kind st =
    (mk (<[kind := EventPolicySet.append suspendedPolicies policySet]>
           (_policySets st))
        (<[kind := mjoin (_suspendedModes st !! kind)]> (_modes st))
        (delete kind (_suspendedPolicySets st))
        (_suspendedModes st)
        (<[kind := true]> (_dirtyPolicies st))
        ("change" :: emitted st),
     Return tt).
Proof.
  intros Hs Hps. unfold restore. unfold_M. rewrite Hs. unfold_M.
  rewrite Hps. reflexivity.
Qed.

Lemma restore_undefined st kind suspendedPolicies :
  _suspendedPolicySets st !! kind = Some suspendedPolicies →
  _policySets st !! kind = None →
  restore kind st =
    (set_modes <[kind := mjoin (_suspendedModes st !! kind)]> st,
     Throw TypeError).
Proof.
  intros Hs Hps. unfold restore. unfold_M. rewrite Hs. unfold_M.
  rewrite Hps. reflexivity.
Qed.

Lemma addPolicyList_defined st kind policyList policySet :
  _policySets st !! kind = Some policySet →
  addPolicyList kind policyList st =
    (set_policySets
       <[kind := (EventPolicySet.addPolicyList policySet policyList).1]>
       (set_dirtyPolicies <[kind := true]> st),
     Return (EventPolicySet.addPolicyList policySet policyList).2).
Proof.
  intros Hps. unfold addPolicyList. unfold_M. simpl. rewrite Hps. unfold_M.
  destruct (EventPolicySet.addPolicyList policySet policyList). reflexivity.
Qed.

Lemma addPolicyList_undefined st kind policyList :
  _policySets st !! kind = None →
  addPolicyList kind policyList st =
    (set_dirtyPolicies <[kind := true]> st, Throw TypeError).
Proof.
  intros Hps. unfold addPolicyList. unfold_M. simpl. rewrite Hps. reflexivity.
Qed.

(** Removal from the suspended set. *)
Lemma removePolicyList_suspended st kind id suspendedPolicySet :
  _suspendedPolicySets st !! kind = Some suspendedPolicySet →
  EventPolicySet.has suspendedPolicySet id = true →
  removePolicyList kind id st =
    (set_suspendedPolicySets
       <[kind := (EventPolicySet.removePolicyList suspendedPolicySet id).1]>
       (set_dirtyPolicies <[kind := true]> st),
     (EventPolicySet.removePolicyList suspendedPolicySet id).2).
Proof.
  intros Hs Hhas. unfold removePolicyList. unfold_M. rewrite Hs, Hhas.
  destruct (EventPolicySet.removePolicyList suspendedPolicySet id) as [s' []];
    reflexivity.
Qed.

(** Removal from the active set. *)
Lemma removePolicyList_active st kind id policySet :
  in_suspended st kind id = false →
  _policySets st !! kind = Some policySet →
  removePolicyList kind id st =
    (set_policySets
       <[kind := (EventPolicySet.removePolicyList policySet id).1]>
       (set_dirtyPolicies <[kind := true]> st),
     (EventPolicySet.removePolicyList policySet id).2).
Proof.
  unfold in_suspended. intros Hguard Hps. unfold removePolicyList. unfold_M.
  destruct (_suspendedPolicySets st !! kind) as [sp|]; [rewrite Hguard|];
    simpl; rewrite Hps; unfold_M;
    destruct (EventPolicySet.removePolicyList policySet id) as [s' []];
    reflexivity.
Qed.

Lemma removePolicyList_undefined st kind id :
  in_suspended st kind id = false →
  _policySets st !! kind = None →
  removePolicyList kind id st =
    (set_dirtyPolicies <[kind := true]> st, Throw TypeError).
Proof.
  unfold in_suspended. intros Hguard Hps. unfold removePolicyList. unfold_M.
  destruct (_suspendedPolicySets st !! kind) as [sp|]; [rewrite Hguard|];
    simpl; rewrite Hps; reflexivity.
Qed.

(** ** Queries after an update *)

Lemma isSuspended_true st kind :
  isSuspended st kind = true ↔ is_Some (_suspendedPolicySets st !! kind).
Proof. unfold isSuspended. apply bool_decide_eq_true. Qed.

Lemma isSuspended_false st kind :
  isSuspended st kind = false ↔ _suspendedPolicySets st !! kind = None.
Proof.
  unfold isSuspended. rewrite bool_decide_eq_false. symmetry.
  apply eq_None_not_Some.
Qed.

(** ** Every kind keeps its policy set *)

Lemma has_policySets_initial : has_policySets (initial (EPS := EPS)).
Proof. intros []; vm_compute; eauto. Qed.

Lemma has_policySets_step (a : action EventPolicy) st :
  has_policySets st → has_policySets (step a st).
Proof.
  assert (Hins : ∀ (sets : gmap eventKind EPS) k k' v,
             is_Some (sets !! k') → is_Some (<[k := v]> sets !! k')).
  { intros sets k k' v Hs. rewrite lookup_insert. case_decide; eauto. }
  assert (Hsuspend : ∀ k, has_policySets st →
             has_policySets (state_after (suspend k) st)).
  { intros k Hst. destruct (Hst k) as [ps Hps]. unfold state_after.
    rewrite (suspend_defined _ _ _ Hps). intros k'. simpl. apply Hins, Hst. }
  assert (Hrestore : ∀ k, has_policySets st →
             has_policySets (state_after (restore k) st)).
  { intros k Hst. destruct (Hst k) as [ps Hps]. unfold state_after.
    destruct (_suspendedPolicySets st !! k) as [sp|] eqn:Hs.
    - rewrite (restore_defined _ _ _ _ Hs Hps). intros k'. simpl.
      apply Hins, Hst.
    - rewrite (restore_not_suspended _ _ Hs). exact Hst. }
  assert (Hremove : ∀ k id, has_policySets st →
             has_policySets (state_after (removePolicyList k id) st)).
  { intros k id Hst. destruct (Hst k) as [ps Hps]. unfold state_after.
    destruct (in_suspended st k id) eqn:Hg.
    - unfold in_suspended in Hg.
      destruct (_suspendedPolicySets st !! k) as [sp|] eqn:Hs; [|done].
      rewrite (removePolicyList_suspended _ _ _ _ Hs Hg). exact Hst.
    - rewrite (removePolicyList_active _ _ _ _ Hg Hps). intros k'. simpl.
      apply Hins, Hst. }
  assert (Hadd : ∀ k l, has_policySets st →
             has_policySets (state_after (addPolicyList k l) st)).
  { intros k l Hst. destruct (Hst k) as [ps Hps]. unfold state_after.
    rewrite (addPolicyList_defined _ _ _ _ Hps). intros k'. simpl.
    apply Hins, Hst. }
  intros Hst. destruct a; simpl; auto.
  - intros []; vm_compute; eauto.
  - apply Hremove, Hst.
  - apply Hremove, Hst.
  - apply Hadd, Hst.
  - apply Hadd, Hst.
Qed.

(** Whatever the store has gone through since it was initialised, every kind
    has its policy set. *)
Lemma has_policySets_run (actions : list (action EventPolicy)) st :
  has_policySets st → has_policySets (run actions st).
Proof.
  revert st. induction actions as [|a actions IH]; intros st Hst; [done|].
  simpl. apply IH, has_policySets_step, Hst.
Qed.

End PolicyStoreEquations.

Section PolicyStoreClaims.
Context {EventPolicy EPS : Type} `{!EventPolicySet.Ops EventPolicy EPS}.
Implicit Types (st : t EPS) (kind : eventKind).

(** C1.  When the policies of [kind] are suspended, [restore kind] returns
    and leaves a store in which the mode of [kind] is the mode saved by the
    suspension, the active policy set of [kind] is the suspended set appended
    with the set that was active (the one accumulated since the suspension),
    [kind] is no longer suspended, and [kind] is dirty.  The mode saved by a
    suspension is the mode that was current when [suspend] was called. *)
Theorem restore_of_suspended st kind suspendedPolicies policySet :
  _suspendedPolicySets st !! kind = Some suspendedPolicies →
  _policySets st !! kind = Some policySet →
  let st' := state_after (restore kind) st in
  isSuspended st kind = true ∧
  outcome (restore kind) st = Return tt ∧
  getMode st' kind = mjoin (_suspendedModes st !! kind) ∧
  _policySets st' !! kind =
    Some (EventPolicySet.append suspendedPolicies policySet) ∧
  isSuspended st' kind = false ∧
  isDirty st' kind = true ∧
  (∀ st0, is_Some (_policySets st0 !! kind) →
     mjoin (_suspendedModes (state_after (suspend kind) st0) !! kind)
     = getMode st0 kind).
Proof.
  intros Hs Hps st'. subst st'. unfold state_after, outcome.
  rewrite (restore_defined _ _ _ _ Hs Hps). simpl.
  split; [apply isSuspended_true; eauto|].
  split; [reflexivity|].
  split; [unfold getMode; simpl; by rewrite lookup_insert_eq|].
  split; [apply lookup_insert_eq|].
  split; [apply isSuspended_false; simpl; apply lookup_delete_eq|].
  split; [unfold isDirty; simpl; by rewrite lookup_insert_eq|].
  intros st0 [ps0 Hps0]. rewrite (suspend_defined _ _ _ Hps0). simpl.
  by rewrite lookup_insert_eq.
Qed.

(** C2.  [restore kind] throws the error "Policies are not currently
    suspended" exactly when [kind] is not suspended, and then the store
    (policy sets, modes, suspended sets and modes, dirty bits, emitted
    events) is what it was.  In a store where [kind] has its policy set,
    [restore kind] throws nothing else. *)
Theorem restore_throws_iff_not_suspended st kind :
  (outcome (restore kind) st
     = Throw (Error "Policies are not currently suspended")
   ↔ isSuspended st kind = false) ∧
  (isSuspended st kind = false → state_after (restore kind) st = st) ∧
  (is_Some (_policySets st !! kind) →
     (throws (outcome (restore kind) st) ↔ isSuspended st kind = false) ∧
     (throws (outcome (restore kind) st) →
        outcome (restore kind) st
          = Throw (Error "Policies are not currently suspended") ∧
        state_after (restore kind) st = st)).
Proof.
  unfold state_after, outcome.
  destruct (_suspendedPolicySets st !! kind) as [sp|] eqn:Hs.
  - assert (Hsusp : isSuspended st kind ≠ false).
    { intros Hf. apply isSuspended_false in Hf. congruence. }
    split; [|split; [done|]].
    + split; [|done]. destruct (_policySets st !! kind) as [ps|] eqn:Hps.
      * by rewrite (restore_defined _ _ _ _ Hs Hps).
      * by rewrite (restore_undefined _ _ _ Hs Hps).
    + intros [ps Hps]. rewrite (restore_defined _ _ _ _ Hs Hps). simpl.
      split; [split; [|done]|]; intros [e He]; discriminate.
  - assert (Hsusp : isSuspended st kind = false) by by apply isSuspended_false.
    rewrite (restore_not_suspended _ _ Hs). simpl.
    split; [done|]. split; [done|]. intros _. split; [|done].
    split; [done|]. intros _. by eexists.
Qed.

(** C8.  [areAllSuspended] is true exactly when keyboard policies are
    suspended, whatever the state of the pointer policies: suspending the
    keyboard policies of a fresh store makes it true while pointer policies
    are not suspended, so it is not the conjunction of the two
    [isSuspended]. *)
Theorem areAllSuspended_is_keyboard_only :
  (∀ st, areAllSuspended st = isSuspended st KEYBOARD) ∧
  (∀ st (pointer : option EPS),
     areAllSuspended (set_suspendedPolicySets
                        (λ sets, match pointer with
                                 | Some policySet => <[POINTER := policySet]> sets
                                 | None => delete POINTER sets
                                 end) st)
     = areAllSuspended st) ∧
  (let st := state_after (suspend KEYBOARD) (initial (EPS := EPS)) in
   areAllSuspended st = true ∧ isSuspended st POINTER = false) ∧
  ¬ (∀ st, areAllSuspended st
           = isSuspended st KEYBOARD && isSuspended st POINTER).
Proof.
  assert (Hwitness :
    let st := state_after (suspend KEYBOARD) (initial (EPS := EPS)) in
    areAllSuspended st = true ∧ isSuspended st POINTER = false).
  { split; vm_compute; reflexivity. }
  split; [|split; [|split; [exact Hwitness|]]].
  - intros st. unfold areAllSuspended, isSuspended.
    by destruct (bool_decide _).
  - intros st [ps|]; unfold areAllSuspended; simpl.
    + by rewrite lookup_insert_ne.
    + by rewrite lookup_delete_ne.
  - intros Hall. destruct Hwitness as [Hk Hp].
    rewrite Hall, Hp, andb_false_r in Hk. discriminate.
Qed.

(** A policy operation on a kind either throws before it has changed
    anything, or sets the dirty bit of that kind and no other. *)
Lemma dirty_after_operation (a : action EventPolicy) st kind :
  has_policySets st →
  operation_kind a = Some kind →
  step a st = st ∨
  _dirtyPolicies (step a st) = <[kind := true]> (_dirtyPolicies st).
Proof.
  intros Hst.
  assert (Hremove : ∀ k id,
    _dirtyPolicies (state_after (removePolicyList k id) st)
    = <[k := true]> (_dirtyPolicies st)).
  { intros k id. destruct (Hst k) as [ps Hps]. unfold state_after.
    destruct (in_suspended st k id) eqn:Hg.
    - unfold in_suspended in Hg.
      destruct (_suspendedPolicySets st !! k) as [sp|] eqn:Hs; [|done].
      by rewrite (removePolicyList_suspended _ _ _ _ Hs Hg).
    - by rewrite (removePolicyList_active _ _ _ _ Hg Hps). }
  assert (Hadd : ∀ k l,
    _dirtyPolicies (state_after (addPolicyList k l) st)
    = <[k := true]> (_dirtyPolicies st)).
  { intros k l. destruct (Hst k) as [ps Hps]. unfold state_after.
    by rewrite (addPolicyList_defined _ _ _ _ Hps). }
  destruct a as [|k|k m|k|k|k id|id|id|k l|l|l]; simpl; intros Ha;
    try discriminate; injection Ha as <-;
    try (right; apply Hremove); try (right; apply Hadd).
  - right. destruct (Hst k) as [ps Hps]. unfold state_after.
    by rewrite (suspend_defined _ _ _ Hps).
  - destruct (Hst k) as [ps Hps]. unfold state_after.
    destruct (_suspendedPolicySets st !! k) as [sp|] eqn:Hs.
    + right. by rewrite (restore_defined _ _ _ _ Hs Hps).
    + left. by rewrite (restore_not_suspended _ _ Hs).
Qed.

(** C9.  In a store where every kind has its policy set: [suspend kind]
    returns and leaves [kind] dirty; so does [restore kind] when [kind] is
    suspended; [addPolicyList] and [removePolicyList] leave [kind] dirty
    whatever they return or throw, a removal that removes nothing included;
    a policy operation on [kind] that changes the store at all leaves [kind]
    dirty.  A dirty bit that is set stays set through every action except
    [POLICIES_INSTALLED] for that kind and [RESET], which both clear it. *)
Theorem dirty_bit_invariant st kind :
  has_policySets st →
  (outcome (suspend kind) st = Return tt ∧
   isDirty (state_after (suspend kind) st) kind = true) ∧
  (isSuspended st kind = true →
   outcome (restore kind) st = Return tt ∧
   isDirty (state_after (restore kind) st) kind = true) ∧
  (∀ policyList,
     isDirty (state_after (addPolicyList kind policyList) st) kind = true) ∧
  (∀ id, isDirty (state_after (removePolicyList kind id) st) kind = true) ∧
  (∀ a : action EventPolicy,
     operation_kind a = Some kind → step a st ≠ st →
     isDirty (step a st) kind = true) ∧
  (∀ a : action EventPolicy,
     isDirty st kind = true → isDirty (step a st) kind = false →
     a = POLICIES_INSTALLED kind ∨ a = RESET) ∧
  isDirty (step (POLICIES_INSTALLED kind : action EventPolicy) st) kind
    = false ∧
  isDirty (step (RESET : action EventPolicy) st) kind = false.
Proof.
  intros Hst. destruct (Hst kind) as [ps Hps].
  assert (Hop : ∀ a : action EventPolicy,
    operation_kind a = Some kind → step a st ≠ st →
    isDirty (step a st) kind = true).
  { intros a Ha Hne.
    destruct (dirty_after_operation a st kind Hst Ha) as [Heq|Hd]; [done|].
    unfold isDirty. by rewrite Hd, lookup_insert_eq. }
  split; [|split; [|split; [|split; [|split; [exact Hop|split; [|split]]]]]].
  - unfold outcome, state_after. rewrite (suspend_defined _ _ _ Hps).
    split; [done|]. unfold isDirty. simpl. by rewrite lookup_insert_eq.
  - intros [sp Hs]%isSuspended_true. unfold outcome, state_after.
    rewrite (restore_defined _ _ _ _ Hs Hps).
    split; [done|]. unfold isDirty. simpl. by rewrite lookup_insert_eq.
  - intros l. unfold state_after. rewrite (addPolicyList_defined _ _ _ _ Hps).
    unfold isDirty. simpl. by rewrite lookup_insert_eq.
  - intros id.
    destruct (dirty_after_operation (RemovePolicyList kind id) st kind Hst)
      as [Heq|Hd]; [done| |].
    + simpl in Heq. rewrite Heq. unfold state_after in Heq.
      destruct (in_suspended st kind id) eqn:Hg.
      * unfold in_suspended in Hg.
        destruct (_suspendedPolicySets st !! kind) as [sp|] eqn:Hs; [|done].
        rewrite (removePolicyList_suspended _ _ _ _ Hs Hg) in Heq.
        rewrite <- Heq. unfold isDirty. simpl. by rewrite lookup_insert_eq.
      * rewrite (removePolicyList_active _ _ _ _ Hg Hps) in Heq.
        rewrite <- Heq. unfold isDirty. simpl. by rewrite lookup_insert_eq.
    + simpl in Hd. unfold isDirty. by rewrite Hd, lookup_insert_eq.
  - intros a Hdirty Hclean.
    destruct (operation_kind a) as [k|] eqn:Ha.
    + exfalso.
      destruct (dirty_after_operation a st k Hst Ha) as [Heq|Hd].
      * rewrite Heq in Hclean. congruence.
      * unfold isDirty in *. rewrite Hd, lookup_insert in Hclean.
        case_decide; [done|congruence].
    + destruct a as [|k|k m|k|k|k id|id|id|k l|l|l]; try discriminate.
      * by right.
      * left. destruct (decide (k = kind)) as [->|Hne]; [done|]. exfalso.
        unfold isDirty in *. simpl in Hclean.
        rewrite lookup_delete_ne in Hclean by done. congruence.
      * exfalso. simpl in Hclean. unfold isDirty in *. simpl in Hclean.
        congruence.
  - unfold isDirty. simpl. by rewrite lookup_delete_eq.
  - reflexivity.
Qed.

End PolicyStoreClaims.

(** * The policy store over the modelled policy sets *)

Section PolicyStoreModel.
Context {EventPolicy : Type}.
Implicit Types (st : t (EventPolicySet.t EventPolicy)) (kind : eventKind).
Implicit Types (s : EventPolicySet.t EventPolicy) (id : N).

Lemma model_has_true s id :
  EventPolicySet.has s id = true
  ↔ is_Some (EventPolicySet._policyLists s !! id).
Proof. apply bool_decide_eq_true. Qed.

Lemma model_has_false s id :
  EventPolicySet.has s id = false
  ↔ EventPolicySet._policyLists s !! id = None.
Proof.
  unfold EventPolicySet.has; simpl. unfold EventPolicySet.model_has.
  rewrite bool_decide_eq_false. symmetry. apply eq_None_not_Some.
Qed.

(** Appending a fresh set that continues the counter changes nothing. *)
Lemma model_append_fresh s :
  EventPolicySet.append s
    (EventPolicySet.new (Some (EventPolicySet.getNextPolicyID s))) = s.
Proof.
  destruct s as [lists counter]. cbn.
  unfold EventPolicySet.model_append. cbn.
  by rewrite (left_id_L ∅ (∪)), N.max_id.
Qed.

(** An ID issued at or past the counter of a set is not in that set. *)
Lemma model_fresh_id s id :
  EventPolicySet.ids_below_counter s →
  (EventPolicySet._policyCounter s ≤ id)%N →
  EventPolicySet.has s id = false.
Proof.
  intros Hbelow Hle. apply model_has_false.
  destruct (EventPolicySet._policyLists s !! id) eqn:Hid; [|done].
  specialize (Hbelow id (ltac:(eauto))). lia.
Qed.

(** ** The IDs of every set of the store stay below its counter *)

Lemma ids_below_counter_new (counter : option N) :
  EventPolicySet.ids_below_counter
    (EventPolicySet.new counter : EventPolicySet.t EventPolicy).
Proof. intros id [l Hl]. simpl in Hl. by rewrite lookup_empty in Hl. Qed.

Lemma ids_below_counter_add s (policyList : list EventPolicy) :
  EventPolicySet.ids_below_counter s →
  EventPolicySet.ids_below_counter
    (EventPolicySet.addPolicyList s policyList).1.
Proof.
  intros Hs id. simpl. rewrite lookup_insert.
  case_decide as Hid; [subst; lia|]. intros Hsome%Hs. lia.
Qed.

Lemma ids_below_counter_remove s id :
  EventPolicySet.ids_below_counter s →
  EventPolicySet.ids_below_counter (EventPolicySet.removePolicyList s id).1.
Proof.
  intros Hs. simpl. unfold EventPolicySet.model_removePolicyList.
  destruct (EventPolicySet._policyLists s !! id) eqn:Hid; [|done].
  intros id'. simpl. rewrite lookup_delete.
  case_decide; [by intros [? ?]|]. apply Hs.
Qed.

Lemma ids_below_counter_append s (other : EventPolicySet.t EventPolicy) :
  EventPolicySet.ids_below_counter s →
  EventPolicySet.ids_below_counter other →
  EventPolicySet.ids_below_counter (EventPolicySet.append s other).
Proof.
  intros Hs Hother id. simpl. rewrite lookup_union.
  destruct (EventPolicySet._policyLists other !! id) eqn:Ho,
           (EventPolicySet._policyLists s !! id) eqn:Hi;
    simpl; intros [l' Hl]; try discriminate.
  - specialize (Hother id). rewrite Ho in Hother.
    specialize (Hother (ltac:(eauto))). lia.
  - specialize (Hother id). rewrite Ho in Hother.
    specialize (Hother (ltac:(eauto))). lia.
  - specialize (Hs id). rewrite Hi in Hs.
    specialize (Hs (ltac:(eauto))). lia.
Qed.

Lemma bounded_ids_initial :
  bounded_ids (initial (EPS := EventPolicySet.t EventPolicy)).
Proof.
  split; intros [] s; vm_compute; intros [= <-] id [l Hl]; discriminate.
Qed.

Lemma bounded_ids_step (a : action EventPolicy) st :
  has_policySets st → bounded_ids st → bounded_ids (step a st).
Proof.
  intros Hst [Hactive Hsusp].
  assert (Hins : ∀ (sets : gmap eventKind (EventPolicySet.t EventPolicy)) k v,
    EventPolicySet.ids_below_counter v →
    (∀ kind s, sets !! kind = Some s → EventPolicySet.ids_below_counter s) →
    ∀ kind s, <[k := v]> sets !! kind = Some s →
              EventPolicySet.ids_below_counter s).
  { intros sets k v Hv Hsets kind s. rewrite lookup_insert.
    case_decide; [by intros [= <-]|apply Hsets]. }
  assert (Hremove : ∀ k id,
    bounded_ids (state_after (removePolicyList k id) st)).
  { intros k id. destruct (Hst k) as [ps Hps]. unfold state_after.
    destruct (in_suspended st k id) eqn:Hg.
    - unfold in_suspended in Hg.
      destruct (_suspendedPolicySets st !! k) as [sp|] eqn:Hs; [|done].
      rewrite (removePolicyList_suspended _ _ _ _ Hs Hg).
      split; [exact Hactive|]. cbn [fst _suspendedPolicySets
        set_suspendedPolicySets set_dirtyPolicies].
      apply Hins; [|exact Hsusp]. eapply ids_below_counter_remove, Hsusp, Hs.
    - rewrite (removePolicyList_active _ _ _ _ Hg Hps).
      split; [|exact Hsusp]. cbn [fst _policySets set_policySets
        set_dirtyPolicies].
      apply Hins; [|exact Hactive].
      eapply ids_below_counter_remove, Hactive, Hps. }
  assert (Hadd : ∀ k l, bounded_ids (state_after (addPolicyList k l) st)).
  { intros k l. destruct (Hst k) as [ps Hps]. unfold state_after.
    rewrite (addPolicyList_defined _ _ _ _ Hps).
    split; [|exact Hsusp]. cbn [fst _policySets set_policySets
      set_dirtyPolicies].
    apply Hins; [|exact Hactive]. eapply ids_below_counter_add, Hactive, Hps. }
  destruct a as [|k|k m|k|k|k id|id|id|k l|l|l]; simpl;
    try apply Hremove; try apply Hadd.
  - apply bounded_ids_initial.
  - by split.
  - by split.
  - destruct (Hst k) as [ps Hps]. unfold state_after.
    rewrite (suspend_defined _ _ _ Hps). split; cbn [fst _policySets
      _suspendedPolicySets].
    + apply Hins; [apply ids_below_counter_new|exact Hactive].
    + apply Hins; [eapply Hactive, Hps|exact Hsusp].
  - destruct (Hst k) as [ps Hps]. unfold state_after.
    destruct (_suspendedPolicySets st !! k) as [sp|] eqn:Hs.
    + rewrite (restore_defined _ _ _ _ Hs Hps). split; cbn [fst _policySets
        _suspendedPolicySets].
      * apply Hins; [|exact Hactive].
        apply ids_below_counter_append; [eapply Hsusp, Hs|eapply Hactive, Hps].
      * intros kind s. rewrite lookup_delete. case_decide; [done|].
        apply Hsusp.
    + rewrite (restore_not_suspended _ _ Hs). by split.
Qed.

(** In every store reached from the initial one, every kind has its policy
    set and the IDs of every set lie below its counter. *)
Lemma reachable_invariants (actions : list (action EventPolicy)) :
  let st := run actions (initial (EPS := EventPolicySet.t EventPolicy)) in
  has_policySets st ∧ bounded_ids st.
Proof.
  simpl. split; [apply has_policySets_run, has_policySets_initial|].
  assert (Hrun : ∀ (acts : list (action EventPolicy)) st,
    has_policySets st → bounded_ids st → bounded_ids (run acts st)).
  { induction acts as [|a acts IH]; intros st Hst Hb; [done|]. simpl.
    apply IH; [by apply has_policySets_step|by apply bounded_ids_step]. }
  apply Hrun; [apply has_policySets_initial|apply bounded_ids_initial].
Qed.

(** C3.  From any store in which [kind] has its policy set, [suspend kind]
    followed at once by [restore kind] returns, and the store it leaves has
    the mode of [kind] and the master policy list of [kind] (indeed the
    whole policy set of [kind]) that it had before, has [kind] not
    suspended, and has [kind] dirty. *)
Theorem suspend_restore_roundtrip st kind :
  is_Some (_policySets st !! kind) →
  let st' := state_after (suspend kind;; restore kind) st in
  outcome (suspend kind;; restore kind) st = Return tt ∧
  getMode st' kind = getMode st kind ∧
  outcome (getMasterPolicyList kind) st'
    = outcome (getMasterPolicyList kind) st ∧
  completes (outcome (getMasterPolicyList kind) st) ∧
  _policySets st' !! kind = _policySets st !! kind ∧
  isSuspended st' kind = false ∧
  isDirty st' kind = true.
Proof.
  intros [ps Hps] st'.
  assert (Hrun : (suspend kind;; restore kind) st =
    (mk (<[kind := ps]> (<[kind := EventPolicySet.new
              (Some (EventPolicySet.getNextPolicyID ps))]> (_policySets st)))
        (<[kind := mjoin (_modes st !! kind)]> (_modes st))
        (delete kind (<[kind := ps]> (_suspendedPolicySets st)))
        (<[kind := mjoin (_modes st !! kind)]> (_suspendedModes st))
        (<[kind := true]> (<[kind := true]> (_dirtyPolicies st)))
        ("change" :: "change" :: emitted st),
     Return tt)).
  { unfold mbind at 1. unfold M_bind. rewrite (suspend_defined _ _ _ Hps).
    erewrite restore_defined; [|simpl; apply lookup_insert_eq..].
    rewrite model_append_fresh. simpl. by rewrite lookup_insert_eq. }
  subst st'. unfold state_after, outcome at 1. rewrite Hrun.
  cbn [fst snd]. clear Hrun.
  split; [done|].
  split; [unfold getMode; cbn [_modes]; by rewrite lookup_insert_eq|].
  split; [|split; [|split; [|split]]].
  - unfold outcome, getMasterPolicyList. unfold_M. cbn [_policySets].
    by rewrite lookup_insert_eq, Hps.
  - unfold outcome, getMasterPolicyList. unfold_M. rewrite Hps. by eexists.
  - cbn [_policySets]. by rewrite lookup_insert_eq.
  - apply isSuspended_false. cbn [_suspendedPolicySets].
    apply lookup_delete_eq.
  - unfold isDirty. cbn [_dirtyPolicies]. by rewrite lookup_insert_eq.
Qed.
(** While [kind] stays suspended, installing lists leaves the suspended set
    alone and keeps the active counter at or past the suspended one. *)
Lemma adds_during_suspension st kind suspended active
    (policyLists : list (list EventPolicy)) :
  _suspendedPolicySets st !! kind = Some suspended →
  _policySets st !! kind = Some active →
  (EventPolicySet._policyCounter suspended
   ≤ EventPolicySet._policyCounter active)%N →
  let st' := run (AddPolicyList kind <$> policyLists) st in
  _suspendedPolicySets st' !! kind = Some suspended ∧
  ∃ active', _policySets st' !! kind = Some active' ∧
             (EventPolicySet._policyCounter suspended
              ≤ EventPolicySet._policyCounter active')%N.
Proof.
  revert st active.
  induction policyLists as [|l ls IH]; intros st active Hs Hps Hle; simpl.
  - eauto.
  - apply (IH _ (EventPolicySet.addPolicyList active l).1).
    + unfold state_after. by rewrite (addPolicyList_defined _ _ _ _ Hps).
    + unfold state_after. rewrite (addPolicyList_defined _ _ _ _ Hps).
      cbn [fst _policySets set_policySets]. apply lookup_insert_eq.
    + simpl. lia.
Qed.

(** C7.  In a store where [kind] has the policy set [previousPolicySet],
    [suspend kind] returns and leaves as the active set of [kind] a new set
    that has no policy list and whose next ID is the next ID of
    [previousPolicySet], which becomes the suspended set; [kind] is
    suspended and dirty; its mode is what it was; every field of the store
    is what it was at the other kind.  When the IDs of [previousPolicySet]
    lie below its counter, no ID issued by [addPolicyList] during the
    suspension is an ID of the suspended set. *)
Theorem suspend_fresh_set_and_frame st kind previousPolicySet :
  _policySets st !! kind = Some previousPolicySet →
  let counter := EventPolicySet.getNextPolicyID previousPolicySet in
  let fresh : EventPolicySet.t EventPolicy :=
    EventPolicySet.new (Some counter) in
  let st' := state_after (suspend kind) st in
  outcome (suspend kind) st = Return tt ∧
  _policySets st' !! kind = Some fresh ∧
  (∀ id, EventPolicySet.has fresh id = false) ∧
  outcome (getMasterPolicyList kind) st' = Return [] ∧
  EventPolicySet.getNextPolicyID fresh = counter ∧
  _suspendedPolicySets st' !! kind = Some previousPolicySet ∧
  (EventPolicySet.ids_below_counter previousPolicySet →
   ∀ (policyLists : list (list EventPolicy)) (policyList : list EventPolicy),
     let st'' := run (AddPolicyList kind <$> policyLists) st' in
     _suspendedPolicySets st'' !! kind = Some previousPolicySet ∧
     ∃ id, outcome (addPolicyList kind policyList) st'' = Return id ∧
           EventPolicySet.has previousPolicySet id = false) ∧
  isSuspended st' kind = true ∧
  isDirty st' kind = true ∧
  getMode st' kind = getMode st kind ∧
  (∀ kind', kind' ≠ kind →
     _policySets st' !! kind' = _policySets st !! kind' ∧
     _modes st' !! kind' = _modes st !! kind' ∧
     getMode st' kind' = getMode st kind' ∧
     _suspendedPolicySets st' !! kind' = _suspendedPolicySets st !! kind' ∧
     _suspendedModes st' !! kind' = _suspendedModes st !! kind' ∧
     isSuspended st' kind' = isSuspended st kind' ∧
     _dirtyPolicies st' !! kind' = _dirtyPolicies st !! kind' ∧
     isDirty st' kind' = isDirty st kind').
Proof.
  intros Hps counter fresh st'.
  assert (Hst' : st' =
    mk (<[kind := fresh]> (_policySets st))
       (_modes st)
       (<[kind := previousPolicySet]> (_suspendedPolicySets st))
       (<[kind := mjoin (_modes st !! kind)]> (_suspendedModes st))
       (<[kind := true]> (_dirtyPolicies st))
       ("change" :: emitted st)).
  { subst st'. unfold state_after. by rewrite (suspend_defined _ _ _ Hps). }
  assert (Hactive : _policySets st' !! kind = Some fresh).
  { rewrite Hst'. cbn [_policySets]. apply lookup_insert_eq. }
  assert (Hsusp : _suspendedPolicySets st' !! kind = Some previousPolicySet).
  { rewrite Hst'. cbn [_suspendedPolicySets]. apply lookup_insert_eq. }
  split; [unfold outcome; by rewrite (suspend_defined _ _ _ Hps)|].
  split; [exact Hactive|].
  split; [intros id; apply model_has_false; apply lookup_empty|].
  split.
  { unfold outcome, getMasterPolicyList. unfold_M. rewrite Hactive.
    cbn [snd]. f_equal. }
  split; [reflexivity|].
  split; [exact Hsusp|].
  split.
  { intros Hbelow policyLists policyList st''.
    destruct (adds_during_suspension st' kind previousPolicySet
                fresh policyLists Hsusp Hactive)
      as (Hs'' & active' & Hps'' & Hle).
    { change (EventPolicySet._policyCounter fresh)
        with (EventPolicySet._policyCounter previousPolicySet). lia. }
    split; [exact Hs''|].
    exists (EventPolicySet.addPolicyList active' policyList).2. split.
    - unfold outcome. subst st''.
      by rewrite (addPolicyList_defined _ _ _ _ Hps'').
    - by apply model_fresh_id. }
  split; [apply isSuspended_true; rewrite Hsusp; eauto|].
  split; [unfold isDirty; rewrite Hst'; cbn [_dirtyPolicies];
          by rewrite lookup_insert_eq|].
  split; [by rewrite Hst'|].
  intros kind' Hne. unfold getMode, isSuspended, isDirty. rewrite Hst'.
  cbn [_policySets _modes _suspendedPolicySets _suspendedModes _dirtyPolicies].
  by rewrite !lookup_insert_ne.
Qed.
(** C10.  In a store where [kind] has the policy set [policySet]:
    when [kind] is suspended and its suspended set has [id],
    [removePolicyList kind id] removes the list from the suspended set and
    returns it, leaving the active sets alone; in every other case its
    outcome is that of removing [id] from the active set, which it updates,
    leaving the suspended sets alone.  Hence a list installed before a
    suspension is removed, and returned, by a removal during the
    suspension. *)
Theorem removePolicyList_suspended_first st kind id policySet :
  _policySets st !! kind = Some policySet →
  let st' := state_after (removePolicyList kind id) st in
  (∀ suspendedPolicySet,
     _suspendedPolicySets st !! kind = Some suspendedPolicySet →
     EventPolicySet.has suspendedPolicySet id = true →
     let removal := EventPolicySet.removePolicyList suspendedPolicySet id in
     outcome (removePolicyList kind id) st = removal.2 ∧
     (∃ policyList,
        EventPolicySet._policyLists suspendedPolicySet !! id = Some policyList ∧
        removal.2 = Return policyList) ∧
     _suspendedPolicySets st' !! kind = Some removal.1 ∧
     EventPolicySet.has removal.1 id = false ∧
     _policySets st' = _policySets st) ∧
  (in_suspended st kind id = false →
     let removal := EventPolicySet.removePolicyList policySet id in
     outcome (removePolicyList kind id) st = removal.2 ∧
     _policySets st' !! kind = Some removal.1 ∧
     _suspendedPolicySets st' = _suspendedPolicySets st) ∧
  (∀ policyList : list EventPolicy,
     let installed := EventPolicySet.getNextPolicyID policySet in
     let suspended :=
       state_after (addPolicyList kind policyList;; suspend kind) st in
     outcome (addPolicyList kind policyList) st = Return installed ∧
     isSuspended suspended kind = true ∧
     in_suspended suspended kind installed = true ∧
     outcome (removePolicyList kind installed) suspended
       = Return policyList ∧
     isSuspended (state_after (removePolicyList kind installed) suspended) kind
       = true ∧
     in_suspended (state_after (removePolicyList kind installed) suspended)
       kind installed = false).
Proof.
  intros Hps st'. split; [|split].
  - intros sp Hs Hhas removal. subst st'. unfold outcome, state_after.
    rewrite (removePolicyList_suspended _ _ _ _ Hs Hhas).
    cbn [fst snd set_suspendedPolicySets set_dirtyPolicies
         _suspendedPolicySets _policySets].
    apply model_has_true in Hhas as [l Hl].
    assert (Hremoval : removal =
      (EventPolicySet.mk (delete id (EventPolicySet._policyLists sp))
                         (EventPolicySet._policyCounter sp), Return l)).
    { subst removal. cbn. unfold EventPolicySet.model_removePolicyList.
      by rewrite Hl. }
    split; [done|]. split; [exists l; by rewrite Hremoval|].
    split; [apply lookup_insert_eq|]. split; [|done].
    apply model_has_false. rewrite Hremoval. apply lookup_delete_eq.
  - intros Hguard removal. subst st'. unfold outcome, state_after.
    rewrite (removePolicyList_active _ _ _ _ Hguard Hps).
    cbn [fst snd set_policySets set_dirtyPolicies
         _suspendedPolicySets _policySets].
    split; [done|]. split; [apply lookup_insert_eq|done].
  - intros l installed suspended.
    set (added := EventPolicySet.mk
           (<[installed := l]> (EventPolicySet._policyLists policySet))
           (N.succ installed)).
    assert (Hsuspended : suspended =
      mk (<[kind := EventPolicySet.new
                      (Some (EventPolicySet.getNextPolicyID added))]>
            (<[kind := added]> (_policySets st)))
         (_modes st)
         (<[kind := added]> (_suspendedPolicySets st))
         (<[kind := mjoin (_modes st !! kind)]> (_suspendedModes st))
         (<[kind := true]> (<[kind := true]> (_dirtyPolicies st)))
         ("change" :: emitted st)).
    { subst suspended. unfold state_after, mbind at 1. unfold M_bind.
      rewrite (addPolicyList_defined _ _ _ _ Hps).
      erewrite suspend_defined; [reflexivity|].
      cbn [fst _policySets set_policySets set_dirtyPolicies].
      apply lookup_insert_eq. }
    assert (Hs : _suspendedPolicySets suspended !! kind = Some added).
    { rewrite Hsuspended. cbn [_suspendedPolicySets]. apply lookup_insert_eq. }
    assert (Hhas : EventPolicySet.has added installed = true).
    { apply model_has_true. cbn [EventPolicySet._policyLists added].
      rewrite lookup_insert_eq. eauto. }
    split; [unfold outcome; by rewrite (addPolicyList_defined _ _ _ _ Hps)|].
    split; [apply isSuspended_true; rewrite Hs; eauto|].
    split; [unfold in_suspended; by rewrite Hs|].
    unfold outcome, state_after.
    rewrite (removePolicyList_suspended _ _ _ _ Hs Hhas).
    assert (Hremoval : EventPolicySet.removePolicyList added installed =
      (EventPolicySet.mk (delete installed (EventPolicySet._policyLists added))
                         (EventPolicySet._policyCounter added), Return l)).
    { cbn. unfold EventPolicySet.model_removePolicyList.
      cbn [EventPolicySet._policyLists added]. by rewrite lookup_insert_eq. }
    rewrite Hremoval.
    cbn [fst snd set_suspendedPolicySets set_dirtyPolicies
         _suspendedPolicySets].
    split; [done|]. split.
    + apply isSuspended_true.
      cbn [_suspendedPolicySets set_suspendedPolicySets set_dirtyPolicies].
      rewrite lookup_insert_eq. eauto.
    + unfold in_suspended.
      cbn [_suspendedPolicySets set_suspendedPolicySets set_dirtyPolicies].
      rewrite lookup_insert_eq. apply model_has_false.
      cbn [EventPolicySet._policyLists]. apply lookup_delete_eq.
Qed.

End PolicyStoreModel.

(** * The number input *)

(** A number is not finite exactly when it is [NaN] or an infinity. *)
Lemma isFinite_false (value : number) :
  NumberInput.isFinite value = false
  ↔ value = NaN ∨ value = Infinity ∨ value = NegInfinity.
Proof.
  unfold NaN, Infinity, NegInfinity. split.
  - destruct value as [s|[]| |s m e]; simpl; intros Hf;
      try discriminate; auto.
  - intros [->|[->| ->]]; reflexivity.
Qed.

(** C4.  Whatever number [math.parseNumber] makes of the raw string,
    [extractValue] returns [null] exactly when that number is [NaN] or one
    of the two infinities, and returns that number when it is none of
    them; it never returns a number that is not finite. *)
Theorem extractValue_rejects_non_finite
    (parseNumber : string → Z → number) (rawValue : string) :
  let value := parseNumber rawValue 10%Z in
  (NumberInput.extractValue parseNumber rawValue = None
   ↔ value = NaN ∨ value = Infinity ∨ value = NegInfinity) ∧
  (NumberInput.extractValue parseNumber rawValue ≠ None
   ↔ NumberInput.extractValue parseNumber rawValue = Some value) ∧
  (∀ extracted,
     NumberInput.extractValue parseNumber rawValue = Some extracted →
     extracted = value ∧ extracted ≠ NaN ∧ extracted ≠ Infinity ∧
     extracted ≠ NegInfinity).
Proof.
  intros value. unfold NumberInput.extractValue. fold value.
  pose proof (isFinite_false value) as Hnf.
  destruct (NumberInput.isFinite value) eqn:Hfin.
  - assert (Hnone : ¬ (value = NaN ∨ value = Infinity ∨ value = NegInfinity)).
    { intros Hv. apply Hnf in Hv. discriminate. }
    split; [split; [discriminate|tauto]|].
    split; [split; [done|discriminate]|].
    intros extracted [= <-]. tauto.
  - split; [split; [intros _; by apply Hnf|done]|].
    split; [split; [done|discriminate]|].
    intros extracted [=].
Qed.

(** * The document model *)

Section DocumentClaims.
Context {Bounds LayerStructure : Type}.
Variable Bounds_fromDocumentDescriptor : jsval → completion Bounds.
Variable Bounds_updateSize : Bounds → number → number → Bounds.
Variable LayerStructure_fromDescriptors :
  jsval → list jsval → completion LayerStructure.
Implicit Types (this : Document.t Bounds LayerStructure).

(** A document whose bounds are still the default [null] cannot be
    resized. *)
Lemma resize_without_bounds this (x y : number) :
  Document.bounds this = None →
  Document.resize Bounds_updateSize this x y = Throw TypeError.
Proof. intros Hbounds. unfold Document.resize. by rewrite Hbounds. Qed.

(** C5.  On a document that has bounds, [resize x y] returns a document
    whose bounds are the original bounds updated to the size [(x, y)] and
    whose other six fields are those of the original.  A document is a
    value and [resize] a function of it: there is no store through which
    the call could change the document it was called on. *)
Theorem resize_sets_bounds_only this this_bounds (x y : number) :
  Document.bounds this = Some this_bounds →
  ∃ resized,
    Document.resize Bounds_updateSize this x y = Return resized ∧
    Document.bounds resized = Some (Bounds_updateSize this_bounds x y) ∧
    Document.id resized = Document.id this ∧
    Document.name resized = Document.name this ∧
    Document.hasBackgroundLayer resized = Document.hasBackgroundLayer this ∧
    Document.layers resized = Document.layers this ∧
    Document.resolution resized = Document.resolution this ∧
    Document.mode resized = Document.mode this.
Proof.
  intros Hbounds. unfold Document.resize. rewrite Hbounds.
  eexists. split; [reflexivity|]. simpl. by repeat split.
Qed.

(** C6.  Whenever [fromDescriptors] returns a document, its [id] is the
    descriptor's [documentID], its [name] the descriptor's [title], its
    [hasBackgroundLayer] the descriptor's [hasBackgroundLayer], its
    [resolution] the descriptor's [resolution.value], its [mode] the
    descriptor's [mode.value], its [bounds] the bounds built from the
    descriptor and its [layers] the layer structure built from the
    descriptor and the layer descriptors.  It does return a document for
    every descriptor whose [resolution] and [mode] are values with
    properties and from which the bounds and the layers can be built. *)
Theorem fromDescriptors_mirrors_descriptor
    (documentDescriptor : jsval) (layerDescriptors : list jsval) :
  let returned :=
    Document.fromDescriptors Bounds_fromDocumentDescriptor
      LayerStructure_fromDescriptors documentDescriptor layerDescriptors in
  (∀ document,
     returned = Return document →
     Document.id document = prop documentDescriptor "documentID" ∧
     Document.name document = prop documentDescriptor "title" ∧
     Document.hasBackgroundLayer document
       = prop documentDescriptor "hasBackgroundLayer" ∧
     Document.resolution document
       = prop (prop documentDescriptor "resolution") "value" ∧
     Document.mode document
       = prop (prop documentDescriptor "mode") "value" ∧
     (∃ model_bounds,
        Bounds_fromDocumentDescriptor documentDescriptor
          = Return model_bounds ∧
        Document.bounds document = Some model_bounds) ∧
     (∃ model_layers,
        LayerStructure_fromDescriptors documentDescriptor layerDescriptors
          = Return model_layers ∧
        Document.layers document = Some model_layers)) ∧
  (nullish documentDescriptor = false →
   nullish (prop documentDescriptor "resolution") = false →
   nullish (prop documentDescriptor "mode") = false →
   completes (Bounds_fromDocumentDescriptor documentDescriptor) →
   completes
     (LayerStructure_fromDescriptors documentDescriptor layerDescriptors) →
   completes returned).
Proof.
  intros returned. subst returned. unfold Document.fromDescriptors, get.
  split.
  - intros document.
    destruct (nullish documentDescriptor) eqn:Hdoc; [discriminate|].
    destruct (nullish (prop documentDescriptor "resolution")) eqn:Hres;
      simpl; rewrite ?Hres; simpl; [discriminate|].
    destruct (nullish (prop documentDescriptor "mode")) eqn:Hmode;
      simpl; rewrite ?Hmode; simpl; [discriminate|].
    destruct (Bounds_fromDocumentDescriptor documentDescriptor)
      as [model_bounds|]; [|discriminate].
    destruct (LayerStructure_fromDescriptors documentDescriptor
                layerDescriptors) as [model_layers|]; [|discriminate].
    simpl. intros [= <-]. simpl. repeat split; eauto.
  - intros -> Hres Hmode [model_bounds ->] [model_layers ->]. simpl.
    rewrite Hres. simpl. rewrite Hmode. simpl. by eexists.
Qed.

End DocumentClaims.

(** * The theorems at work on the examples *)

Lemma restore_of_suspended_example :
  let st := Examples.suspended_keyboard in
  let st' := state_after (restore KEYBOARD) st in
  _suspendedPolicySets st !! KEYBOARD = Some Examples.saved_set ∧
  _policySets st !! KEYBOARD = Some Examples.accumulated_set ∧
  getMode st KEYBOARD = Some 2%Z ∧
  getMode st' KEYBOARD = Some 1%Z ∧
  outcome (getMasterPolicyList KEYBOARD) st'
    = Return ["escape"; "tab"; "enter"] ∧
  isSuspended st' KEYBOARD = false ∧
  isDirty st' KEYBOARD = true.
Proof.
  intros st st'.
  assert (Hs : _suspendedPolicySets st !! KEYBOARD = Some Examples.saved_set)
    by (vm_compute; reflexivity).
  assert (Hps : _policySets st !! KEYBOARD = Some Examples.accumulated_set)
    by (vm_compute; reflexivity).
  destruct (restore_of_suspended st KEYBOARD _ _ Hs Hps)
    as (_ & _ & Hmode & Hsets & Hnot & Hdirty & _).
  split; [exact Hs|]. split; [exact Hps|].
  split; [vm_compute; reflexivity|].
  split; [unfold st'; rewrite Hmode; vm_compute; reflexivity|].
  split; [|split; [exact Hnot|exact Hdirty]].
  unfold outcome, getMasterPolicyList. unfold_M. unfold st'. rewrite Hsets.
  vm_compute. reflexivity.
Defined.

Lemma suspend_restore_roundtrip_example :
  let st := Examples.two_lists in
  let st' := state_after (suspend KEYBOARD;; restore KEYBOARD) st in
  is_Some (_policySets st !! KEYBOARD) ∧
  outcome (getMasterPolicyList KEYBOARD) st
    = Return ["escape"; "tab"; "enter"] ∧
  outcome (getMasterPolicyList KEYBOARD) st'
    = Return ["escape"; "tab"; "enter"] ∧
  getMode st KEYBOARD = Some 1%Z ∧
  getMode st' KEYBOARD = Some 1%Z ∧
  isSuspended st' KEYBOARD = false ∧
  isDirty st KEYBOARD = false ∧
  isDirty st' KEYBOARD = true.
Proof.
  intros st st'.
  assert (Hps : is_Some (_policySets st !! KEYBOARD))
    by (vm_compute; eauto).
  destruct (suspend_restore_roundtrip st KEYBOARD Hps)
    as (_ & Hmode & Hmaster & _ & _ & Hnot & Hdirty).
  assert (Hlist : outcome (getMasterPolicyList KEYBOARD) st
                  = Return ["escape"; "tab"; "enter"])
    by (vm_compute; reflexivity).
  assert (Hone : getMode st KEYBOARD = Some 1%Z) by (vm_compute; reflexivity).
  split; [exact Hps|]. split; [exact Hlist|].
  split; [unfold st'; rewrite Hmaster; exact Hlist|].
  split; [exact Hone|].
  split; [unfold st'; rewrite Hmode; exact Hone|].
  split; [exact Hnot|]. split; [vm_compute; reflexivity|exact Hdirty].
Defined.

Lemma two_lists_ids_below_counter :
  EventPolicySet.ids_below_counter Examples.two_lists_set.
Proof.
  intros id. unfold Examples.two_lists_set. simpl.
  rewrite lookup_insert, lookup_singleton.
  repeat case_decide; subst; intros [l Hl]; try discriminate; lia.
Defined.

Lemma suspend_fresh_set_and_frame_example :
  let st := Examples.two_lists in
  let st' := state_after (suspend KEYBOARD) st in
  let st'' := run (AddPolicyList KEYBOARD <$> [["space"]]) st' in
  _policySets st !! KEYBOARD = Some Examples.two_lists_set ∧
  EventPolicySet.ids_below_counter Examples.two_lists_set ∧
  _policySets st' !! KEYBOARD = Some (EventPolicySet.mk ∅ 2) ∧
  _suspendedPolicySets st' !! KEYBOARD = Some Examples.two_lists_set ∧
  (∃ id, outcome (addPolicyList KEYBOARD ["delete"]) st'' = Return id ∧
         EventPolicySet.has Examples.two_lists_set id = false) ∧
  outcome (addPolicyList KEYBOARD ["delete"]) st'' = Return 3%N ∧
  isSuspended st' KEYBOARD = true ∧
  isDirty st' KEYBOARD = true ∧
  getMode st' KEYBOARD = Some 1%Z ∧
  isSuspended st' POINTER = false ∧
  isDirty st' POINTER = false.
Proof.
  intros st st' st''.
  assert (Hps : _policySets st !! KEYBOARD = Some Examples.two_lists_set)
    by (vm_compute; reflexivity).
  destruct (suspend_fresh_set_and_frame st KEYBOARD _ Hps)
    as (_ & Hfresh & _ & _ & _ & Hsaved & Hids & Hsusp & Hdirty & Hmode
        & Hframe).
  destruct (Hframe POINTER ltac:(discriminate))
    as (_ & _ & _ & _ & _ & Hsusp' & _ & Hdirty').
  destruct (Hids two_lists_ids_below_counter [["space"]] ["delete"])
    as [_ Hid].
  split; [exact Hps|]. split; [exact two_lists_ids_below_counter|].
  split; [exact Hfresh|]. split; [exact Hsaved|]. split; [exact Hid|].
  split; [vm_compute; reflexivity|].
  split; [exact Hsusp|]. split; [exact Hdirty|].
  split; [unfold st'; rewrite Hmode; vm_compute; reflexivity|].
  split; [unfold st'; rewrite Hsusp'; vm_compute; reflexivity|].
  unfold st'. rewrite Hdirty'. vm_compute. reflexivity.
Defined.

Lemma two_lists_has_policySets : has_policySets Examples.two_lists.
Proof. intros []; vm_compute; eauto. Defined.

Lemma dirty_bit_invariant_example :
  let st := Examples.two_lists in
  has_policySets st ∧
  isDirty st KEYBOARD = false ∧
  _policySets (state_after (removePolicyList KEYBOARD 7) st)
    = _policySets st ∧
  isDirty (state_after (removePolicyList KEYBOARD 7) st) KEYBOARD = true ∧
  isDirty (state_after (suspend KEYBOARD) st) KEYBOARD = true ∧
  isDirty (state_after (addPolicyList KEYBOARD ["space"]) st) KEYBOARD
    = true ∧
  isDirty (step (POLICIES_INSTALLED KEYBOARD : action string)
             (state_after (suspend KEYBOARD) st)) KEYBOARD = false.
Proof.
  intros st.
  destruct (dirty_bit_invariant st KEYBOARD two_lists_has_policySets)
    as ([_ Hsuspend] & _ & Hadd & Hremove & _).
  split; [exact two_lists_has_policySets|].
  split; [vm_compute; reflexivity|].
  split; [vm_compute; reflexivity|].
  split; [exact (Hremove 7%N)|].
  split; [exact Hsuspend|].
  split; [exact (Hadd ["space"])|].
  vm_compute. reflexivity.
Defined.

Lemma removePolicyList_suspended_first_example :
  let st := Examples.suspended_keyboard in
  _policySets st !! KEYBOARD = Some Examples.accumulated_set ∧
  _suspendedPolicySets st !! KEYBOARD = Some Examples.saved_set ∧
  EventPolicySet.has Examples.saved_set 0 = true ∧
  in_suspended st KEYBOARD 1 = false ∧
  outcome (removePolicyList KEYBOARD 0) st = Return ["escape"] ∧
  _policySets (state_after (removePolicyList KEYBOARD 0) st)
    = _policySets st ∧
  outcome (removePolicyList KEYBOARD 1) st = Return ["tab"; "enter"] ∧
  _suspendedPolicySets (state_after (removePolicyList KEYBOARD 1) st)
    = _suspendedPolicySets st.
Proof.
  intros st.
  assert (Hps : _policySets st !! KEYBOARD = Some Examples.accumulated_set)
    by (vm_compute; reflexivity).
  assert (Hs : _suspendedPolicySets st !! KEYBOARD = Some Examples.saved_set)
    by (vm_compute; reflexivity).
  assert (Hhas : EventPolicySet.has Examples.saved_set 0 = true)
    by (vm_compute; reflexivity).
  assert (Hnot : in_suspended st KEYBOARD 1 = false)
    by (vm_compute; reflexivity).
  destruct (removePolicyList_suspended_first st KEYBOARD 0 _ Hps)
    as (Hfirst & _ & _).
  destruct (Hfirst _ Hs Hhas) as (Hout & _ & _ & _ & Hsame).
  destruct (removePolicyList_suspended_first st KEYBOARD 1 _ Hps)
    as (_ & Hactive & _).
  destruct (Hactive Hnot) as (Hout' & _ & Hsame').
  split; [exact Hps|]. split; [exact Hs|]. split; [exact Hhas|].
  split; [exact Hnot|].
  split; [rewrite Hout; vm_compute; reflexivity|].
  split; [exact Hsame|].
  split; [rewrite Hout'; vm_compute; reflexivity|exact Hsame'].
Defined.

Lemma resize_sets_bounds_only_example :
  let resized :=
    Document.resize Examples.size_updateSize Examples.untitled
      Examples.four_hundred_eighty Examples.six_hundred_forty in
  Document.bounds Examples.untitled
    = Some (Examples.six_hundred_forty, Examples.four_hundred_eighty) ∧
  ∃ document,
    resized = Return document ∧
    Document.bounds document
      = Some (Examples.four_hundred_eighty, Examples.six_hundred_forty) ∧
    Document.name document = JString "Untitled-1" ∧
    Document.resolution document = JNumber Examples.seventy_two.
Proof.
  intros resized.
  assert (Hbounds : Document.bounds Examples.untitled
            = Some (Examples.six_hundred_forty, Examples.four_hundred_eighty))
    by reflexivity.
  destruct (resize_sets_bounds_only Examples.size_updateSize
              Examples.untitled _ Examples.four_hundred_eighty
              Examples.six_hundred_forty Hbounds)
    as (document & Hret & Hb & _ & Hname & _ & _ & Hres & _).
  split; [exact Hbounds|]. exists document.
  split; [exact Hret|]. split; [exact Hb|].
  split; [exact Hname|exact Hres].
Defined.

Lemma fromDescriptors_mirrors_descriptor_example :
  let returned :=
    Document.fromDescriptors Examples.size_fromDocumentDescriptor
      Examples.unit_fromDescriptors Examples.untitled_descriptor [] in
  nullish Examples.untitled_descriptor = false ∧
  nullish (prop Examples.untitled_descriptor "resolution") = false ∧
  nullish (prop Examples.untitled_descriptor "mode") = false ∧
  returned = Return Examples.untitled ∧
  completes returned.
Proof.
  intros returned.
  assert (H1 : nullish Examples.untitled_descriptor = false) by reflexivity.
  assert (H2 : nullish (prop Examples.untitled_descriptor "resolution")
               = false) by (vm_compute; reflexivity).
  assert (H3 : nullish (prop Examples.untitled_descriptor "mode") = false)
    by (vm_compute; reflexivity).
  destruct (fromDescriptors_mirrors_descriptor
              Examples.size_fromDocumentDescriptor
              Examples.unit_fromDescriptors Examples.untitled_descriptor [])
    as [_ Hreturns].
  split; [exact H1|]. split; [exact H2|]. split; [exact H3|].
  split; [vm_compute; reflexivity|].
  apply Hreturns; [exact H1|exact H2|exact H3| |].
  - eexists. vm_compute. reflexivity.
  - eexists. reflexivity.
Defined.

(** * Further properties of the policy store *)

Section PolicyStoreFurther.
Context {EventPolicy EPS : Type} `{!EventPolicySet.Ops EventPolicy EPS}.
Implicit Types (st : t EPS) (kind : eventKind) (a : action EventPolicy).

(** ** The fields after each method, with or without a policy set *)

Lemma suspend_effect st kind :
  state_after (suspend kind) st = st ∨
  ∃ previousPolicySet,
    _policySets st !! kind = Some previousPolicySet ∧
    state_after (suspend kind) st =
      mk (<[kind := EventPolicySet.new
                      (Some (EventPolicySet.getNextPolicyID previousPolicySet))]>
            (_policySets st))
         (_modes st)
         (<[kind := previousPolicySet]> (_suspendedPolicySets st))
         (<[kind := mjoin (_modes st !! kind)]> (_suspendedModes st))
         (<[kind := true]> (_dirtyPolicies st))
         ("change" :: emitted st).
Proof.
  unfold state_after. destruct (_policySets st !! kind) as [ps|] eqn:Hps.
  - right. exists ps. by rewrite (suspend_defined _ _ _ Hps).
  - left. by rewrite (suspend_undefined _ _ Hps).
Qed.

Lemma restore_effect st kind :
  state_after (restore kind) st = st ∨
  state_after (restore kind) st
    = set_modes <[kind := mjoin (_suspendedModes st !! kind)]> st ∨
  ∃ suspendedPolicies policySet,
    _suspendedPolicySets st !! kind = Some suspendedPolicies ∧
    _policySets st !! kind = Some policySet ∧
    state_after (restore kind) st =
      mk (<[kind := EventPolicySet.append suspendedPolicies policySet]>
            (_policySets st))
         (<[kind := mjoin (_suspendedModes st !! kind)]> (_modes st))
         (delete kind (_suspendedPolicySets st))
         (_suspendedModes st)
         (<[kind := true]> (_dirtyPolicies st))
         ("change" :: emitted st).
Proof.
  unfold state_after.
  destruct (_suspendedPolicySets st !! kind) as [sp|] eqn:Hs.
  - destruct (_policySets st !! kind) as [ps|] eqn:Hps.
    + right; right. exists sp, ps. by rewrite (restore_defined _ _ _ _ Hs Hps).
    + right; left. by rewrite (restore_undefined _ _ _ Hs Hps).
  - left. by rewrite (restore_not_suspended _ _ Hs).
Qed.

(** A removal changes at most the set it removes from, and never whether
    the kind is suspended. *)
Lemma removePolicyList_effect st kind id :
  ∃ sets' suspended',
    state_after (removePolicyList kind id) st =
      mk sets' (_modes st) suspended' (_suspendedModes st)
         (<[kind := true]> (_dirtyPolicies st)) (emitted st) ∧
    (∀ k, k ≠ kind → sets' !! k = _policySets st !! k ∧
                     suspended' !! k = _suspendedPolicySets st !! k) ∧
    (is_Some (sets' !! kind) ↔ is_Some (_policySets st !! kind)) ∧
    (is_Some (suspended' !! kind)
     ↔ is_Some (_suspendedPolicySets st !! kind)).
Proof.
  unfold state_after. destruct (in_suspended st kind id) eqn:Hg.
  - unfold in_suspended in Hg.
    destruct (_suspendedPolicySets st !! kind) as [sp|] eqn:Hs; [|done].
    rewrite (removePolicyList_suspended _ _ _ _ Hs Hg).
    eexists _, _. split; [reflexivity|].
    split; [intros k Hk; by rewrite lookup_insert_ne|].
    split; [done|]. simpl. rewrite lookup_insert_eq. split; eauto.
  - destruct (_policySets st !! kind) as [ps|] eqn:Hps.
    + rewrite (removePolicyList_active _ _ _ _ Hg Hps).
      eexists _, _. split; [reflexivity|].
      split; [intros k Hk; by rewrite lookup_insert_ne|].
      split; [|done]. simpl. rewrite lookup_insert_eq. split; eauto.
    + rewrite (removePolicyList_undefined _ _ _ Hg Hps).
      eexists _, _. split; [reflexivity|]. simpl. by rewrite Hps.
Qed.

Lemma addPolicyList_effect st kind (policyList : list EventPolicy) :
  ∃ sets',
    state_after (addPolicyList kind policyList) st =
      mk sets' (_modes st) (_suspendedPolicySets st) (_suspendedModes st)
         (<[kind := true]> (_dirtyPolicies st)) (emitted st) ∧
    (∀ k, k ≠ kind → sets' !! k = _policySets st !! k) ∧
    (is_Some (sets' !! kind) ↔ is_Some (_policySets st !! kind)).
Proof.
  unfold state_after. destruct (_policySets st !! kind) as [ps|] eqn:Hps.
  - rewrite (addPolicyList_defined _ _ _ _ Hps).
    eexists. split; [reflexivity|].
    split; [intros k Hk; by rewrite lookup_insert_ne|].
    simpl. rewrite lookup_insert_eq. split; eauto.
  - rewrite (addPolicyList_undefined _ _ _ Hps).
    eexists. split; [reflexivity|]. simpl. by rewrite Hps.
Qed.

(** ** Actions on one kind leave the other alone *)

Lemma same_at_step a st kind kind' :
  affected_kind a = Some kind → kind' ≠ kind → same_at st (step a st) kind'.
Proof.
  intros Ha Hne.
  assert (Hremove : ∀ id,
    same_at st (state_after (removePolicyList kind id) st) kind').
  { intros id.
    destruct (removePolicyList_effect st kind id)
      as (sets' & susp' & -> & Hother & _).
    destruct (Hother kind' Hne) as [Hsets Hsusp].
    repeat split; simpl; try done. by rewrite lookup_insert_ne. }
  assert (Hadd : ∀ l, same_at st (state_after (addPolicyList kind l) st) kind').
  { intros l.
    destruct (addPolicyList_effect st kind l) as (sets' & -> & Hother & _).
    repeat split; simpl; try done; [by apply Hother|].
    by rewrite lookup_insert_ne. }
  destruct a as [|k|k m|k|k|k id|id|id|k l|l|l]; simpl in Ha;
    try discriminate; injection Ha as <-; simpl;
    try apply Hremove; try apply Hadd.
  - repeat split; simpl; try done. by rewrite lookup_delete_ne.
  - repeat split; simpl; try done. by rewrite lookup_insert_ne.
  - destruct (suspend_effect st k) as [->|(ps & _ & ->)]; [done|].
    repeat split; simpl; by rewrite ?lookup_insert_ne.
  - destruct (restore_effect st k) as [->|[->|(sp & ps & _ & _ & ->)]];
      [done| |];
      repeat split; simpl;
      by rewrite ?lookup_insert_ne, ?lookup_delete_ne.
Qed.

(** X1.  An action that concerns one kind (a dispatched
    [POLICIES_INSTALLED] or [MODE_CHANGED], or any policy method, whether it
    returns or throws) leaves all five fields of the store as they were at
    every other kind, and with them every query about that kind: its mode,
    whether it is suspended, whether it is dirty, and its master policy
    list. *)
Theorem actions_leave_other_kinds_alone a st kind kind' :
  affected_kind a = Some kind →
  kind' ≠ kind →
  let st' := step a st in
  same_at st st' kind' ∧
  getMode st' kind' = getMode st kind' ∧
  isSuspended st' kind' = isSuspended st kind' ∧
  isDirty st' kind' = isDirty st kind' ∧
  outcome (getMasterPolicyList kind') st'
    = outcome (getMasterPolicyList kind') st.
Proof.
  intros Ha Hne st'.
  pose proof (same_at_step a st kind kind' Ha Hne) as Hsame.
  split; [exact Hsame|].
  destruct Hsame as (Hsets & Hmodes & Hsusp & _ & Hdirty). fold st' in Hsets,
    Hmodes, Hsusp, Hdirty.
  unfold getMode, isSuspended, isDirty, outcome, getMasterPolicyList.
  unfold_M. rewrite Hsets, Hmodes, Hsusp, Hdirty.
  repeat split. by destruct (_policySets st !! kind').
Qed.

(** ** A store is summarised by the history that led to it *)

Lemma summarises_initial :
  summarises (initial (EPS := EPS))
    (history ([] : list (action EventPolicy))).
Proof.
  split; [apply has_policySets_initial|]. split; [reflexivity|].
  by intros [].
Qed.

Lemma summarises_step a st h :
  summarises st h → summarises (step a st) (history_step h a).
Proof.
  intros (Hst & Hemitted & Hkinds).
  split; [by apply has_policySets_step|].
  assert (Hsusp : ∀ k, KindState.suspended (h.1 k)
                       = bool_decide (is_Some (_suspendedPolicySets st !! k))).
  { intros k. by destruct (Hkinds k) as (<- & _). }
  (* what a removal or an installation leaves behind *)
  assert (Hremove : ∀ k id,
    let st' := state_after (removePolicyList k id) st in
    emitted st' = emitted st ∧
    (∀ kind, kind ≠ k → same_at st st' kind) ∧
    isSuspended st' k = isSuspended st k ∧
    isDirty st' k = true ∧
    getMode st' k = getMode st k ∧
    _suspendedModes st' = _suspendedModes st).
  { intros k id st'. subst st'.
    destruct (removePolicyList_effect st k id)
      as (sets' & susp' & Heq & Hother & _ & Hiff).
    rewrite Heq. split; [done|]. split.
    - intros kind Hne. destruct (Hother kind Hne) as [Hsets Hsusp'].
      repeat split; simpl; try done. by rewrite lookup_insert_ne.
    - unfold isSuspended, isDirty, getMode. simpl.
      rewrite lookup_insert_eq. repeat split. by apply bool_decide_ext. }
  assert (Hadd : ∀ k l,
    let st' := state_after (addPolicyList k l) st in
    emitted st' = emitted st ∧
    (∀ kind, kind ≠ k → same_at st st' kind) ∧
    isSuspended st' k = isSuspended st k ∧
    isDirty st' k = true ∧
    getMode st' k = getMode st k ∧
    _suspendedModes st' = _suspendedModes st).
  { intros k l st'. subst st'.
    destruct (addPolicyList_effect st k l) as (sets' & Heq & Hother & _).
    rewrite Heq. split; [done|]. split.
    - intros kind Hne. repeat split; simpl; try done; [by apply Hother|].
      by rewrite lookup_insert_ne.
    - unfold isSuspended, isDirty, getMode. simpl.
      by rewrite lookup_insert_eq. }
  assert (Hquery : ∀ st' kind, same_at st st' kind →
    isSuspended st' kind = KindState.suspended (h.1 kind) ∧
    isDirty st' kind = KindState.dirty (h.1 kind) ∧
    getMode st' kind = KindState.mode (h.1 kind) ∧
    mjoin (_suspendedModes st' !! kind) = KindState.savedMode (h.1 kind)).
  { intros st' kind (_ & Hmodes & Hsp & Hsm & Hd).
    destruct (Hkinds kind) as (<- & <- & <- & <-).
    unfold isSuspended, isDirty, getMode. by rewrite Hmodes, Hsp, Hsm, Hd. }
  assert (Hmethod : ∀ k (st' : t EPS),
    emitted st' = emitted st ∧
    (∀ kind, kind ≠ k → same_at st st' kind) ∧
    isSuspended st' k = isSuspended st k ∧
    isDirty st' k = true ∧
    getMode st' k = getMode st k ∧
    _suspendedModes st' = _suspendedModes st →
    emitted st' = replicate h.2 "change" ∧
    ∀ kind,
      let s := if decide (Some k = Some kind)
               then KindState.mk (KindState.suspended (h.1 kind)) true
                      (KindState.mode (h.1 kind))
                      (KindState.savedMode (h.1 kind))
               else h.1 kind in
      isSuspended st' kind = KindState.suspended s ∧
      isDirty st' kind = KindState.dirty s ∧
      getMode st' kind = KindState.mode s ∧
      mjoin (_suspendedModes st' !! kind) = KindState.savedMode s).
  { intros k st' (Hem & Hother & Hs' & Hd' & Hm' & Hsm').
    split; [by rewrite Hem|]. intros kind s. subst s.
    destruct (Hkinds kind) as (Hs & Hd & Hm & Hsm).
    case_decide as Hk.
    - injection Hk as ->. simpl. rewrite Hsm'. repeat split; congruence.
    - apply Hquery, Hother. congruence. }
  assert (Hne : ∀ k kind, Some k ≠ Some kind → k ≠ kind) by congruence.
  destruct a as [|k|k m|k|k|k id|id|id|k l|l|l]; simpl.
  - (* RESET *)
    split; [exact Hemitted|]. by intros [].
  - (* POLICIES_INSTALLED *)
    split; [simpl; by rewrite Hemitted|]. intros kind.
    destruct (Hkinds kind) as (Hs & Hd & Hm & Hsm). case_decide as Hk.
    + injection Hk as ->.
      unfold isDirty. simpl. rewrite lookup_delete_eq. by repeat split.
    + unfold isDirty. simpl. rewrite lookup_delete_ne by auto.
      by repeat split.
  - (* MODE_CHANGED *)
    split; [simpl; by rewrite Hemitted|]. intros kind.
    destruct (Hkinds kind) as (Hs & Hd & Hm & Hsm). case_decide as Hk.
    + injection Hk as ->.
      unfold getMode. simpl. rewrite lookup_insert_eq. by repeat split.
    + unfold getMode. simpl. rewrite lookup_insert_ne by auto.
      by repeat split.
  - (* suspend *)
    destruct (Hst k) as [ps Hps]. unfold state_after.
    rewrite (suspend_defined _ _ _ Hps). simpl.
    split; [by rewrite Hemitted|]. intros kind.
    destruct (Hkinds kind) as (Hs & Hd & Hm & Hsm). case_decide as Hk.
    + injection Hk as ->.
      unfold isSuspended, isDirty, getMode. simpl.
      rewrite !lookup_insert_eq. simpl. by repeat split.
    + unfold isSuspended, isDirty, getMode. simpl.
      rewrite !lookup_insert_ne by auto. by repeat split.
  - (* restore *)
    destruct (Hst k) as [ps Hps]. unfold state_after.
    assert (Hflag := Hsusp k).
    destruct (_suspendedPolicySets st !! k) as [sp|] eqn:Hsp.
    + rewrite bool_decide_eq_true_2 in Hflag by eauto.
      rewrite (restore_defined _ _ _ _ Hsp Hps), Hflag.
      cbn [fst snd emitted].
      split; [by rewrite Hemitted|]. intros kind.
      destruct (Hkinds kind) as (Hs & Hd & Hm & Hsm). case_decide as Hk.
      * injection Hk as ->. rewrite Hflag.
        unfold isSuspended, isDirty, getMode. simpl.
        rewrite !lookup_insert_eq, lookup_delete_eq. simpl.
        by repeat split.
      * unfold isSuspended, isDirty, getMode. simpl.
        rewrite !lookup_insert_ne, lookup_delete_ne by auto.
        by repeat split.
    + rewrite bool_decide_eq_false_2 in Hflag by apply is_Some_None.
      rewrite (restore_not_suspended _ _ Hsp), Hflag. cbn [fst snd].
      split; [exact Hemitted|]. intros kind.
      destruct (Hkinds kind) as (Hs & Hd & Hm & Hsm). case_decide as Hk.
      * injection Hk as ->. by rewrite Hflag.
      * done.
  - apply (Hmethod k), Hremove.
  - apply (Hmethod KEYBOARD), Hremove.
  - apply (Hmethod POINTER), Hremove.
  - apply (Hmethod k), Hadd.
  - apply (Hmethod KEYBOARD), Hadd.
  - apply (Hmethod POINTER), Hadd.
Qed.

Lemma summarises_run (actions : list (action EventPolicy)) st h :
  summarises st h → summarises (run actions st) (foldl history_step h actions).
Proof.
  revert st h. induction actions as [|a actions IH]; intros st h Hsum; [done|].
  simpl. by apply IH, summarises_step.
Qed.

Lemma summarises_history (actions : list (action EventPolicy)) :
  summarises (run actions (initial (EPS := EPS))) (history actions).
Proof. apply summarises_run, summarises_initial. Qed.

Lemma history_app (actions more : list (action EventPolicy)) :
  history (actions ++ more) = foldl history_step (history actions) more.
Proof. unfold history. apply foldl_app. Qed.

(** X2.  After any sequence of actions on a freshly initialised store,
    whether a kind is suspended and whether it is dirty are what the
    history says when read as flags: [suspend] raises the suspension flag
    and a [restore] lowers it, however many times [suspend] was called, so
    suspensions do not nest; a [restore] that finds the flag down changes
    neither flag. *)
Theorem suspension_and_dirty_are_flags
    (actions : list (action EventPolicy)) kind :
  let st := run actions (initial (EPS := EPS)) in
  isSuspended st kind = KindState.suspended ((history actions).1 kind) ∧
  isDirty st kind = KindState.dirty ((history actions).1 kind) ∧
  isSuspended (run (actions ++ [Suspend kind; Suspend kind; Restore kind])
                 (initial (EPS := EPS))) kind = false ∧
  outcome (restore kind)
    (run (actions ++ [Suspend kind; Suspend kind; Restore kind])
       (initial (EPS := EPS)))
  = Throw (Error "Policies are not currently suspended").
Proof.
  intros st. subst st.
  destruct (summarises_history actions) as (_ & _ & Hkinds).
  destruct (Hkinds kind) as (Hs & Hd & _). split; [exact Hs|].
  split; [exact Hd|].
  assert (Hflag : isSuspended
    (run (actions ++ [Suspend kind; Suspend kind; Restore kind])
       (initial (EPS := EPS))) kind = false).
  { destruct (summarises_history
                (actions ++ [Suspend kind; Suspend kind; Restore kind]))
      as (_ & _ & Hkinds').
    destruct (Hkinds' kind) as (-> & _). rewrite history_app. simpl.
    rewrite !decide_True by done. reflexivity. }
  split; [exact Hflag|].
  apply isSuspended_false in Hflag. unfold outcome.
  by rewrite (restore_not_suspended _ _ Hflag).
Qed.

(** X3.  After any sequence of actions on a freshly initialised store, the
    mode of a kind is the one the history gives: the last mode set for the
    kind, except that a [restore] of a suspended kind brings back the mode
    that was current at the last [suspend].  So a mode set during a
    suspension is gone after the [restore]. *)
Theorem mode_follows_history (actions : list (action EventPolicy)) kind :
  getMode (run actions (initial (EPS := EPS))) kind
    = KindState.mode ((history actions).1 kind) ∧
  ∀ mode mode',
    getMode (run (actions ++ [MODE_CHANGED kind mode; Suspend kind;
                              MODE_CHANGED kind mode'; Restore kind])
               (initial (EPS := EPS))) kind
    = Some mode.
Proof.
  split.
  - destruct (summarises_history actions) as (_ & _ & Hkinds).
    by destruct (Hkinds kind) as (_ & _ & -> & _).
  - intros mode mode'.
    destruct (summarises_history
                (actions ++ [MODE_CHANGED kind mode; Suspend kind;
                             MODE_CHANGED kind mode'; Restore kind]))
      as (_ & _ & Hkinds).
    destruct (Hkinds kind) as (_ & _ & -> & _). rewrite history_app. simpl.
    rewrite !decide_True by done. reflexivity.
Qed.

(** X4.  The store emits nothing but "change" events, as many as the
    history counts: one for each [POLICIES_INSTALLED], [MODE_CHANGED],
    [suspend], and [restore] of a suspended kind.  Installing or removing a
    policy list, a reset, and a [restore] that throws notify nobody. *)
Theorem only_change_events_are_emitted (actions : list (action EventPolicy)) :
  let st := run actions (initial (EPS := EPS)) in
  emitted st = replicate (history actions).2 "change" ∧
  (∀ kind policyList,
     emitted (state_after (addPolicyList kind policyList) st) = emitted st) ∧
  (∀ kind id,
     emitted (state_after (removePolicyList kind id) st) = emitted st) ∧
  emitted (state_after _handleReset st) = emitted st ∧
  (∀ kind, isSuspended st kind = false →
           emitted (state_after (restore kind) st) = emitted st) ∧
  (∀ kind, isSuspended st kind = true →
           emitted (state_after (restore kind) st)
           = "change" :: emitted st) ∧
  (∀ kind, emitted (state_after (suspend kind) st) = "change" :: emitted st).
Proof.
  intros st. destruct (summarises_history actions) as (Hst & Hem & _).
  fold st in Hst, Hem. split; [exact Hem|].
  split.
  { intros kind l.
    by destruct (addPolicyList_effect st kind l) as (sets' & -> & _). }
  split.
  { intros kind id.
    by destruct (removePolicyList_effect st kind id)
      as (sets' & susp' & -> & _). }
  split; [reflexivity|].
  split.
  { intros kind Hs%isSuspended_false. unfold state_after.
    by rewrite (restore_not_suspended _ _ Hs). }
  split.
  { intros kind [sp Hs]%isSuspended_true. destruct (Hst kind) as [ps Hps].
    unfold state_after. by rewrite (restore_defined _ _ _ _ Hs Hps). }
  intros kind. destruct (Hst kind) as [ps Hps]. unfold state_after.
  by rewrite (suspend_defined _ _ _ Hps).
Qed.

(** X5.  In a store reached from a freshly initialised one by any sequence
    of actions, no method of the store fails for want of a policy set:
    [suspend] returns, [getMasterPolicyList] and [addPolicyList] complete,
    the only exception of [restore] is its own "not currently suspended"
    error, and the outcome of [removePolicyList] is that of the removal
    from a policy set of the store. *)
Theorem reachable_stores_have_their_policy_sets
    (actions : list (action EventPolicy)) kind :
  let st := run actions (initial (EPS := EPS)) in
  outcome (suspend kind) st = Return tt ∧
  completes (outcome (getMasterPolicyList kind) st) ∧
  (∀ policyList, completes (outcome (addPolicyList kind policyList) st)) ∧
  (∀ e, outcome (restore kind) st = Throw e →
        e = Error "Policies are not currently suspended") ∧
  (∀ id, ∃ policySet,
     (_policySets st !! kind = Some policySet ∨
      _suspendedPolicySets st !! kind = Some policySet) ∧
     outcome (removePolicyList kind id) st
     = (EventPolicySet.removePolicyList policySet id).2).
Proof.
  intros st.
  assert (Hst : has_policySets st)
    by apply has_policySets_run, has_policySets_initial.
  destruct (Hst kind) as [ps Hps]. unfold outcome.
  split; [by rewrite (suspend_defined _ _ _ Hps)|].
  split.
  { unfold getMasterPolicyList. unfold_M. rewrite Hps. by eexists. }
  split.
  { intros l. rewrite (addPolicyList_defined _ _ _ _ Hps). by eexists. }
  split.
  { intros e. destruct (_suspendedPolicySets st !! kind) as [sp|] eqn:Hs.
    - by rewrite (restore_defined _ _ _ _ Hs Hps).
    - rewrite (restore_not_suspended _ _ Hs). by intros [= <-]. }
  intros id. destruct (in_suspended st kind id) eqn:Hg.
  - unfold in_suspended in Hg.
    destruct (_suspendedPolicySets st !! kind) as [sp|] eqn:Hs; [|done].
    exists sp. split; [by right|].
    by rewrite (removePolicyList_suspended _ _ _ _ Hs Hg).
  - exists ps. split; [by left|].
    by rewrite (removePolicyList_active _ _ _ _ Hg Hps).
Qed.

(** X6.  A second [suspend] before any [restore] overwrites what the first
    one saved: the set saved for the kind is then the new set that the
    first [suspend] installed, not the set that was active before it, and
    the active set is newer still.  One [restore] then ends the suspension
    with those two new sets appended, and a further [restore] throws. *)
Theorem second_suspend_overwrites_saved_set st kind previousPolicySet :
  _policySets st !! kind = Some previousPolicySet →
  let fresh : EPS :=
    EventPolicySet.new
      (Some (EventPolicySet.getNextPolicyID previousPolicySet)) in
  let fresh' : EPS :=
    EventPolicySet.new (Some (EventPolicySet.getNextPolicyID fresh)) in
  let st2 := state_after (suspend kind;; suspend kind) st in
  let st3 := state_after (restore kind) st2 in
  outcome (suspend kind;; suspend kind) st = Return tt ∧
  _suspendedPolicySets st2 !! kind = Some fresh ∧
  _policySets st2 !! kind = Some fresh' ∧
  outcome (restore kind) st2 = Return tt ∧
  _policySets st3 !! kind = Some (EventPolicySet.append fresh fresh') ∧
  isSuspended st3 kind = false ∧
  outcome (restore kind) st3
    = Throw (Error "Policies are not currently suspended").
Proof.
  intros Hps fresh fresh' st2 st3.
  assert (Hst2 : (suspend kind;; suspend kind) st =
    (mk (<[kind := fresh']> (<[kind := fresh]> (_policySets st)))
        (_modes st)
        (<[kind := fresh]> (<[kind := previousPolicySet]>
                              (_suspendedPolicySets st)))
        (<[kind := mjoin (_modes st !! kind)]>
           (<[kind := mjoin (_modes st !! kind)]> (_suspendedModes st)))
        (<[kind := true]> (<[kind := true]> (_dirtyPolicies st)))
        ("change" :: "change" :: emitted st),
     Return tt)).
  { unfold mbind at 1. unfold M_bind. rewrite (suspend_defined _ _ _ Hps).
    erewrite suspend_defined; [reflexivity|].
    cbn [_policySets]. apply lookup_insert_eq. }
  assert (Hs2 : _suspendedPolicySets st2 !! kind = Some fresh).
  { subst st2. unfold state_after. rewrite Hst2.
    cbn [fst _suspendedPolicySets]. apply lookup_insert_eq. }
  assert (Hp2 : _policySets st2 !! kind = Some fresh').
  { subst st2. unfold state_after. rewrite Hst2.
    cbn [fst _policySets]. apply lookup_insert_eq. }
  assert (Hs3 : _suspendedPolicySets st3 !! kind = None).
  { subst st3. unfold state_after.
    rewrite (restore_defined _ _ _ _ Hs2 Hp2).
    cbn [fst _suspendedPolicySets]. apply lookup_delete_eq. }
  split; [unfold outcome; by rewrite Hst2|].
  split; [exact Hs2|]. split; [exact Hp2|].
  split; [unfold outcome; by rewrite (restore_defined _ _ _ _ Hs2 Hp2)|].
  split.
  { subst st3. unfold state_after.
    rewrite (restore_defined _ _ _ _ Hs2 Hp2).
    cbn [fst _policySets]. apply lookup_insert_eq. }
  split; [by apply isSuspended_false|].
  unfold outcome. by rewrite (restore_not_suspended _ _ Hs3).
Qed.

End PolicyStoreFurther.

(** * Further properties of the document model *)

Section DocumentFurther.
Context {Bounds LayerStructure : Type}.
Variable Bounds_fromDocumentDescriptor : jsval → completion Bounds.
Variable Bounds_updateSize : Bounds → number → number → Bounds.
Variable LayerStructure_fromDescriptors :
  jsval → list jsval → completion LayerStructure.

(** [fromDescriptors] in one piece: the three reads that can fail, then
    the two constructors, then the record. *)
Lemma fromDescriptors_unfold
    (documentDescriptor : jsval) (layerDescriptors : list jsval) :
  Document.fromDescriptors Bounds_fromDocumentDescriptor
    LayerStructure_fromDescriptors documentDescriptor layerDescriptors
  = if nullish documentDescriptor
       || nullish (prop documentDescriptor "resolution")
       || nullish (prop documentDescriptor "mode")
    then Throw TypeError
    else
      model_bounds ← Bounds_fromDocumentDescriptor documentDescriptor;
      model_layers ←
        LayerStructure_fromDescriptors documentDescriptor layerDescriptors;
      Return (Document.mk
                (prop documentDescriptor "documentID")
                (prop documentDescriptor "title")
                (prop documentDescriptor "hasBackgroundLayer")
                (Some model_layers) (Some model_bounds)
                (prop (prop documentDescriptor "resolution") "value")
                (prop (prop documentDescriptor "mode") "value")).
Proof.
  unfold Document.fromDescriptors, get.
  destruct (nullish documentDescriptor) eqn:Hdoc; [done|].
  destruct (nullish (prop documentDescriptor "resolution")) eqn:Hres;
    simpl; rewrite ?Hres; simpl; [done|].
  destruct (nullish (prop documentDescriptor "mode")) eqn:Hmode;
    simpl; rewrite ?Hmode; simpl; [done|].
  reflexivity.
Qed.

(** X7.  [fromDescriptors] throws exactly when the descriptor, its
    [resolution] or its [mode] is [undefined] or [null], or building the
    bounds or the layers throws.  In the first three cases it throws a
    [TypeError]; an exception from the bounds is thrown whatever the layers
    would do.  A descriptor without [documentID], [title] or
    [hasBackgroundLayer] is no error. *)
Theorem fromDescriptors_throws_iff
    (documentDescriptor : jsval) (layerDescriptors : list jsval) :
  let returned :=
    Document.fromDescriptors Bounds_fromDocumentDescriptor
      LayerStructure_fromDescriptors documentDescriptor layerDescriptors in
  let unreadable :=
    nullish documentDescriptor = true ∨
    nullish (prop documentDescriptor "resolution") = true ∨
    nullish (prop documentDescriptor "mode") = true in
  (throws returned ↔
     unreadable ∨
     throws (Bounds_fromDocumentDescriptor documentDescriptor) ∨
     throws (LayerStructure_fromDescriptors documentDescriptor
               layerDescriptors)) ∧
  (unreadable → returned = Throw TypeError) ∧
  (∀ e, ¬ unreadable →
        Bounds_fromDocumentDescriptor documentDescriptor = Throw e →
        returned = Throw e) ∧
  (∀ e model_bounds, ¬ unreadable →
        Bounds_fromDocumentDescriptor documentDescriptor
          = Return model_bounds →
        LayerStructure_fromDescriptors documentDescriptor layerDescriptors
          = Throw e →
        returned = Throw e).
Proof.
  intros returned unreadable. subst returned unreadable.
  rewrite fromDescriptors_unfold. unfold throws.
  destruct (nullish documentDescriptor) eqn:Hdoc;
    [|destruct (nullish (prop documentDescriptor "resolution")) eqn:Hres;
      [|destruct (nullish (prop documentDescriptor "mode")) eqn:Hmode]];
    simpl.
  1-3: split; [split; [intros _; left; tauto|intros _; by eexists]|];
       split; [done|]; split; intros; tauto.
  assert (Hreadable : ¬ (false = true ∨ false = true ∨ false = true))
    by (intros [|[|]]; discriminate).
  destruct (Bounds_fromDocumentDescriptor documentDescriptor)
    as [model_bounds|eb]; simpl.
  - destruct (LayerStructure_fromDescriptors documentDescriptor
                layerDescriptors) as [model_layers|el]; simpl.
    + split.
      { split; [intros [e He]; discriminate|].
        intros [Hu|[[e He]|[e He]]]; [tauto|discriminate..]. }
      split; [tauto|]. split; intros; discriminate.
    + split; [split; [intros _; right; right; by eexists|by eexists]|].
      split; [tauto|]. split; [intros; discriminate|congruence].
  - split; [split; [intros _; right; left; by eexists|by eexists]|].
    split; [tauto|]. split; [congruence|intros; discriminate].
Qed.

(** X8.  A document built by [fromDescriptors] can always be resized:
    [resize] returns the document with the bounds built from the descriptor
    updated to the new size, and a second [resize] updates those bounds
    again, leaving the six other fields as [fromDescriptors] set them. *)
Theorem built_documents_can_be_resized
    (documentDescriptor : jsval) (layerDescriptors : list jsval)
    (document : Document.t Bounds LayerStructure) (x y x' y' : number) :
  Document.fromDescriptors Bounds_fromDocumentDescriptor
    LayerStructure_fromDescriptors documentDescriptor layerDescriptors
    = Return document →
  ∃ model_bounds,
    Bounds_fromDocumentDescriptor documentDescriptor = Return model_bounds ∧
    Document.resize Bounds_updateSize document x y
      = Return (Document.set_bounds
                  (Some (Bounds_updateSize model_bounds x y)) document) ∧
    (Document.resize Bounds_updateSize document x y
       ≫= λ resized, Document.resize Bounds_updateSize resized x' y')
      = Return (Document.set_bounds
                  (Some (Bounds_updateSize
                           (Bounds_updateSize model_bounds x y) x' y'))
                  document).
Proof.
  rewrite fromDescriptors_unfold.
  destruct (_ || _ || _); [discriminate|].
  destruct (Bounds_fromDocumentDescriptor documentDescriptor)
    as [model_bounds|]; [|discriminate]. simpl.
  destruct (LayerStructure_fromDescriptors documentDescriptor
              layerDescriptors) as [model_layers|]; [|discriminate].
  simpl. intros [= <-]. exists model_bounds. by repeat split.
Qed.

End DocumentFurther.

(** * Further properties of the number input *)

Section NumberInputFurther.
Variable parseNumber : string → Z → number.
Variable Number_toString : number → string.

(** X9.  [formatValue] never throws: it is the empty string for [null],
    [undefined], booleans and objects, the string itself for a string, and
    the rendering of the number for a number, [NaN] and the infinities
    included. *)
Theorem formatValue_never_throws (value : jsval) :
  completes (NumberInput.formatValue Number_toString value) ∧
  NumberInput.formatValue Number_toString value
    = Return (match value with
              | JNumber n => Number_toString n
              | JString s => s
              | _ => ""
              end) ∧
  (NumberInput.toString Number_toString value = Throw TypeError →
   NumberInput.formatValue Number_toString value = Return "").
Proof.
  destruct value as [| |b|n|str|properties];
    (split; [by eexists|]); (split; [reflexivity|]);
    first [reflexivity|discriminate|done].
Qed.

(** X10.  Formatting what [extractValue] extracts from a raw string gives
    the empty string when the parsed number is [NaN] or an infinity, and
    the rendering of the parsed number otherwise. *)
Theorem formatValue_of_extractValue (rawValue : string) :
  let value := parseNumber rawValue 10%Z in
  let formatted :=
    NumberInput.formatValue Number_toString
      (NumberInput.extracted
         (NumberInput.extractValue parseNumber rawValue)) in
  (value = NaN ∨ value = Infinity ∨ value = NegInfinity →
   formatted = Return "") ∧
  (value ≠ NaN → value ≠ Infinity → value ≠ NegInfinity →
   formatted = Return (Number_toString value)) ∧
  (formatted = Return "" ∨ formatted = Return (Number_toString value)).
Proof.
  intros value formatted. subst formatted.
  unfold NumberInput.extractValue. fold value.
  pose proof (isFinite_false value) as Hnf.
  destruct (NumberInput.isFinite value) eqn:Hfin; simpl.
  - split; [intros Hv%Hnf; discriminate|]. split; [done|by right].
  - split; [done|]. split; [|by left].
    intros H1 H2 H3. destruct Hnf as [Hnf _].
    destruct (Hnf eq_refl) as [|[|]]; done.
Qed.

End NumberInputFurther.

(** * The further properties at work on the examples *)

Lemma actions_leave_other_kinds_alone_example :
  let st := Examples.suspended_keyboard in
  let st' := step (Restore KEYBOARD : action string) st in
  affected_kind (Restore KEYBOARD : action string) = Some KEYBOARD ∧
  POINTER ≠ KEYBOARD ∧
  isSuspended st KEYBOARD = true ∧
  isSuspended st' KEYBOARD = false ∧
  getMode st' POINTER = getMode st POINTER ∧
  isSuspended st' POINTER = isSuspended st POINTER ∧
  isDirty st' POINTER = isDirty st POINTER ∧
  outcome (getMasterPolicyList POINTER) st'
    = outcome (getMasterPolicyList POINTER) st.
Proof.
  intros st st'.
  assert (Ha : affected_kind (Restore KEYBOARD : action string)
               = Some KEYBOARD) by reflexivity.
  assert (Hne : POINTER ≠ KEYBOARD) by discriminate.
  destruct (actions_leave_other_kinds_alone
              (Restore KEYBOARD : action string) st KEYBOARD POINTER Ha Hne)
    as (_ & Hmode & Hsusp & Hdirty & Hmaster).
  split; [exact Ha|]. split; [exact Hne|].
  split; [vm_compute; reflexivity|]. split; [vm_compute; reflexivity|].
  split; [exact Hmode|]. split; [exact Hsusp|].
  split; [exact Hdirty|exact Hmaster].
Defined.

Lemma second_suspend_overwrites_saved_set_example :
  let st := Examples.two_lists in
  let st3 :=
    state_after (suspend KEYBOARD;; suspend KEYBOARD;; restore KEYBOARD) st in
  _policySets st !! KEYBOARD = Some Examples.two_lists_set ∧
  outcome (getMasterPolicyList KEYBOARD) st
    = Return ["escape"; "tab"; "enter"] ∧
  outcome (getMasterPolicyList KEYBOARD) st3 = Return [] ∧
  isSuspended st3 KEYBOARD = false ∧
  outcome (restore KEYBOARD) st3
    = Throw (Error "Policies are not currently suspended").
Proof.
  intros st st3.
  assert (Hps : _policySets st !! KEYBOARD = Some Examples.two_lists_set)
    by (vm_compute; reflexivity).
  destruct (second_suspend_overwrites_saved_set st KEYBOARD _ Hps)
    as (_ & _ & _ & _ & _ & Hnot & Hthrows).
  split; [exact Hps|]. split; [vm_compute; reflexivity|].
  split; [vm_compute; reflexivity|]. split; [exact Hnot|exact Hthrows].
Defined.

Lemma built_documents_can_be_resized_example :
  Document.fromDescriptors Examples.size_fromDocumentDescriptor
    Examples.unit_fromDescriptors Examples.untitled_descriptor []
  = Return Examples.untitled ∧
  Document.resize Examples.size_updateSize Examples.untitled
    Examples.four_hundred_eighty Examples.six_hundred_forty
  = Return (Document.set_bounds
              (Some (Examples.four_hundred_eighty, Examples.six_hundred_forty))
              Examples.untitled).
Proof.
  assert (Hbuilt :
    Document.fromDescriptors Examples.size_fromDocumentDescriptor
      Examples.unit_fromDescriptors Examples.untitled_descriptor []
    = Return Examples.untitled) by (vm_compute; reflexivity).
  destruct (built_documents_can_be_resized
              Examples.size_fromDocumentDescriptor Examples.size_updateSize
              Examples.unit_fromDescriptors Examples.untitled_descriptor []
              Examples.untitled Examples.four_hundred_eighty
              Examples.six_hundred_forty Examples.seventy_two
              Examples.seventy_two Hbuilt)
    as (model_bounds & Hb & Hresize & _).
  split; [exact Hbuilt|]. rewrite Hresize. vm_compute in Hb.
  injection Hb as <-. reflexivity.
Defined.
